(** * dhcpserver: the requeststats and responsestats plugins

    A shallow embedding of the two CoreDHCP statistics plugins of the
    dhcpserver repository,

      - [responsestats] (responsestats/plugin.go): response-side
        handlers; [ia_fixup] reconciles the identity associations a DHCPv6
        client asked for with the ones the response carries and appends a
        status-code-only identity association for each one the response
        forgot;
      - [requeststats]: request-side handlers; [Handler6] decapsulates
        relayed requests and counts message types and requested identity
        associations, [Handler4] counts missing Relay Agent Information
        suboptions;

    and the properties of the reconciliation, decapsulation and
    classification logic.

    The plugins are written against github.com/insomniacslk/dhcp.  The
    parts of that library the handlers call are modelled in the modules
    [dhcpv6] and [dhcpv4] below; Prometheus counters and the logger are
    modelled as an ordered trace of events. *)

From Stdlib Require Import ZArith Strings.Byte.
From stdpp Require Import base option list strings gmap.

Local Open Scope Z_scope.

#[local] Set Warnings "-register-all".

(** ** Bytes *)

Abbreviation byte := Byte.byte.

#[global] Instance byte_eq_dec : EqDecision byte := Byte.byte_eq_dec.

Definition byte_val (b : byte) : Z := Z.of_N (Byte.to_N b).

(** Go's [bytes.Compare]: lexicographic comparison of two byte slices,
    -1, 0 or +1. *)
Fixpoint bytes_Compare (a b : list byte) : Z :=
  match a, b with
  | [], [] => 0
  | [], _ :: _ => -1
  | _ :: _, [] => 1
  | x :: a', y :: b' =>
      if byte_val x <? byte_val y then -1
      else if byte_val y <? byte_val x then 1
      else bytes_Compare a' b'
  end.

(** Go's [(value, error)] results. *)
Inductive result (A : Type) :=
| Ok (a : A)
| Err (msg : string).
Arguments Ok {A} a.
Arguments Err {A} msg.

(** ** The DHCPv6 message library, as far as the plugins use it

    Modelled from the spec: package dhcpv6 of github.com/insomniacslk/dhcp,
    which the plugins import and the repository does not contain.  The
    specification takes the library as given; the definitions below follow
    its description of messages, relay envelopes, reservations and
    unwrapping, and the use the handlers make of each call.  The library
    puts no bound on the nesting depth of relay envelopes. *)

Module dhcpv6.

Definition OptionCode := Z.
Definition OptionIANA : OptionCode := 3.
Definition OptionIATA : OptionCode := 4.
Definition OptionIAAddr : OptionCode := 5.
Definition OptionStatusCode : OptionCode := 13.
Definition OptionIAPD : OptionCode := 25.
Definition OptionIAPrefix : OptionCode := 26.

Definition MessageType := Z.

(** [iana.StatusCode] *)
Definition StatusCode := Z.
Definition StatusNoAddrsAvail : StatusCode := 2.
Definition StatusNoPrefixAvail : StatusCode := 6.

(** An IAID is a Go [[4]byte]; [IAID_slice] is [iaid[:]]. *)
Definition IAID : Type := byte * byte * byte * byte.

Definition IAID_slice (i : IAID) : list byte :=
  let '(a, b, c, d) := i in [a; b; c; d].

(** The options found inside an identity association. *)
Inductive IAOption :=
| OptIAAddress (IPv6Addr : list byte) (PreferredLifetime ValidLifetime : Z)
| OptIAPrefix (PreferredLifetime ValidLifetime : Z) (Prefix : list byte) (PrefixLen : Z)
| OptStatusCode (code : StatusCode) (StatusMessage : string)
| OptOther (code : OptionCode) (data : list byte).

Definition IAOption_Code (o : IAOption) : OptionCode :=
  match o with
  | OptIAAddress _ _ _ => OptionIAAddr
  | OptIAPrefix _ _ _ _ => OptionIAPrefix
  | OptStatusCode _ _ => OptionStatusCode
  | OptOther c _ => c
  end.

(** [Options.Add]: [*o = append( *o, option)]. *)
Definition Options_Add {A} (o : list A) (option : A) : list A := o ++ [option].

(** [IdentityOptions.Addresses] and [IdentityOptions.OneAddress]: the
    IA-address options in order, and the first of them or nil. *)
Definition Addresses (o : list IAOption) : list IAOption :=
  List.filter (λ x, bool_decide (IAOption_Code x = OptionIAAddr)) o.

Definition OneAddress (o : list IAOption) : option IAOption :=
  match Addresses o with
  | [] => None
  | a :: _ => Some a
  end.

(** [PDOptions.Prefixes]: the IA-prefix options in order. *)
Definition Prefixes (o : list IAOption) : list IAOption :=
  List.filter (λ x, bool_decide (IAOption_Code x = OptionIAPrefix)) o.

Record OptIANA := mkOptIANA {
  iana_IaId : IAID;
  iana_T1 : Z;
  iana_T2 : Z;
  iana_Options : list IAOption
}.

Record OptIATA := mkOptIATA {
  iata_IaId : IAID;
  iata_Options : list IAOption
}.

Record OptIAPD := mkOptIAPD {
  iapd_IaId : IAID;
  iapd_T1 : Z;
  iapd_T2 : Z;
  iapd_Options : list IAOption
}.

(** The options of a message.  The three identity-association kinds are
    the ones the plugins look at; every other option is [OptGeneric]. *)
Inductive Option :=
| OptionOfIANA (o : OptIANA)
| OptionOfIATA (o : OptIATA)
| OptionOfIAPD (o : OptIAPD)
| OptGeneric (code : OptionCode) (data : list byte).

Definition Option_Code (o : Option) : OptionCode :=
  match o with
  | OptionOfIANA _ => OptionIANA
  | OptionOfIATA _ => OptionIATA
  | OptionOfIAPD _ => OptionIAPD
  | OptGeneric c _ => c
  end.

(** [MessageOptions.IANA], [.IATA], [.IAPD]: the options of that kind,
    in message order. *)
Definition IANA (o : list Option) : list OptIANA :=
  omap (λ x, match x with OptionOfIANA i => Some i | _ => None end) o.

Definition IATA (o : list Option) : list OptIATA :=
  omap (λ x, match x with OptionOfIATA i => Some i | _ => None end) o.

Definition IAPD (o : list Option) : list OptIAPD :=
  omap (λ x, match x with OptionOfIAPD i => Some i | _ => None end) o.

(** [dhcpv6.Message]: a client/server message. *)
Record Message := mkMessage {
  MessageType_ : MessageType;
  TransactionID : list byte;
  Options : list Option
}.

(** The fixed fields of a [dhcpv6.RelayMessage]. *)
Record RelayFields := mkRelayFields {
  RelayType : MessageType;
  HopCount : Z;
  LinkAddr : list byte;
  PeerAddr : list byte
}.

(** The [dhcpv6.DHCPv6] interface has two implementations, [*Message] and
    [*RelayMessage].  A relay message holds its fixed fields, the message
    of its relay-message option ([Options.RelayMessage()], nil when the
    option is absent) and its other options. *)
Inductive DHCPv6 :=
| IsMessage (m : Message)
| IsRelayMessage (f : RelayFields) (RelayMsg : option DHCPv6) (opts : list Option).

Definition IsRelay (d : DHCPv6) : bool :=
  match d with
  | IsMessage _ => false
  | IsRelayMessage _ _ _ => true
  end.

(** [AddOption]: both implementations append to their option list. *)
Definition AddOption (d : DHCPv6) (option : Option) : DHCPv6 :=
  match d with
  | IsMessage m =>
      IsMessage (mkMessage (MessageType_ m) (TransactionID m)
                           (Options_Add (Options m) option))
  | IsRelayMessage f rm opts => IsRelayMessage f rm (Options_Add opts option)
  end.

(** Modelled from the spec: [dhcpv6.DecapsulateRelay] of the imported
    library (not part of the repository).  One unwrapping step: a message
    that is not a relay is returned as it is; a relay yields the message of
    its relay-message option, and an error when it has none. *)
Definition DecapsulateRelay (l : DHCPv6) : result DHCPv6 :=
  match l with
  | IsMessage _ => Ok l
  | IsRelayMessage _ (Some rm) _ => Ok rm
  | IsRelayMessage _ None _ => Err "malformed Relay message: no OptRelayMsg found"
  end.

(** The [for] loop of [DecapsulateRelayIndex] at index -1:
    [d, err := DecapsulateRelay(l); if err != nil { return nil, err };
     if !d.IsRelay() { return l, nil }; l = d]. *)
Fixpoint DecapsulateRelayLast (l : DHCPv6) : result DHCPv6 :=
  match l with
  | IsMessage _ => Ok l
  | IsRelayMessage _ None _ => Err "malformed Relay message: no OptRelayMsg found"
  | IsRelayMessage _ (Some d) _ =>
      if negb (IsRelay d) then Ok l else DecapsulateRelayLast d
  end.

(** The counting loop of [DecapsulateRelayIndex] at an index >= 0:
    [n] unwrapping steps. *)
Fixpoint DecapsulateRelayTimes (n : nat) (l : DHCPv6) : result DHCPv6 :=
  match n with
  | O => Ok l
  | S n' =>
      match DecapsulateRelay l with
      | Err e => Err e
      | Ok d => DecapsulateRelayTimes n' d
      end
  end.

(** Modelled from the spec: [dhcpv6.DecapsulateRelayIndex] of the imported
    library.  A message that is not a relay is returned as it is; index -1
    yields the innermost relay message, index i >= 0 the content of the
    i-th relay, counted from the outermost. *)
Definition DecapsulateRelayIndex (l : DHCPv6) (index : Z) : result DHCPv6 :=
  if negb (IsRelay l) then Ok l
  else if index <? -1 then Err "Invalid index"
  else if index =? -1 then DecapsulateRelayLast l
  else DecapsulateRelayTimes (Z.to_nat (index + 1)) l.

(** Modelled from the spec: [GetInnerMessage] of the imported library.
    While the current message is a relay, it is replaced by its inner
    message; the first client message met is the result, and a relay
    without an inner message is an error. *)
Fixpoint GetInnerMessage (p : DHCPv6) : result Message :=
  match p with
  | IsMessage m => Ok m
  | IsRelayMessage _ None _ => Err "malformed Relay message: no OptRelayMsg found"
  | IsRelayMessage _ (Some d) _ => GetInnerMessage d
  end.

End dhcpv6.

(** ** The DHCPv4 message library, as far as the plugins use it

    Modelled from the spec: package dhcpv4 of github.com/insomniacslk/dhcp
    and the [net.IP] methods of the Go library, which the repository does
    not contain. *)

Module dhcpv4.

Definition OpcodeType := Z.
Definition OpcodeBootRequest : OpcodeType := 1.
Definition OpcodeBootReply : OpcodeType := 2.

Definition MessageType := Z.
Definition MessageTypeAck : MessageType := 5.

(** Relay Agent Information suboption codes (RFC 3046, RFC 3527). *)
Definition AgentCircuitIDSubOption : Z := 1.
Definition AgentRemoteIDSubOption : Z := 2.
Definition LinkSelectionSubOption : Z := 5.

(** [net.IP] is a byte slice; nil and empty both have length 0. *)
Definition IP := list byte.

Definition zero_bytes (n : nat) : list byte := replicate n Byte.x00.

Definition v4InV6Prefix : list byte := zero_bytes 10 ++ [Byte.xff; Byte.xff].

(** Go's [net.IP.IsUnspecified]: the IPv4 address 0.0.0.0, in its 4-byte
    or its 16-byte form, or the IPv6 address [::]. *)
Definition IsUnspecified (ip : IP) : bool :=
  bool_decide (ip = zero_bytes 4)
  || bool_decide (ip = v4InV6Prefix ++ zero_bytes 4)
  || bool_decide (ip = zero_bytes 16).

(** [dhcpv4.Options] is a [map[uint8][]byte]. *)
Abbreviation Options := (gmap Z (list byte)).

(** [GetString]: the option's bytes as a string, the empty string when
    the option is absent. *)
Definition GetString (code : Z) (o : Options) : string :=
  match o !! code with
  | None => EmptyString
  | Some v => String.string_of_list_byte v
  end.

(** [GetIP]: the option's value when it is exactly four bytes long, nil
    when the option is absent or has another length. *)
Definition GetIP (code : Z) (o : Options) : option IP :=
  match o !! code with
  | None => None
  | Some v => if bool_decide (length v = 4%nat) then Some v else None
  end.

(** [dhcpv4.DHCPv4], with the fields the handlers read.  [MessageType_]
    and [RelayAgentInfo_] hold what the accessors [MessageType()] and
    [RelayAgentInfo()] decode from the message's options: the message
    type, and the suboptions of option 82 or nil. *)
Record DHCPv4 := mkDHCPv4 {
  OpCode : OpcodeType;
  ClientHWAddr : list byte;
  YourIPAddr : IP;
  GatewayIPAddr : IP;
  MessageType_ : MessageType;
  RelayAgentInfo_ : option Options
}.

End dhcpv4.

(** ** Effects: counters and log lines

    A counter is named by the Go variable that holds it.  A label value is
    either a string literal of the plugin or the rendering of a message
    type by the library's [MessageType.String()], which is kept symbolic.
    A log line is the format string with its arguments. *)

Inductive Label :=
| Lit (s : string)
| TypeString (t : Z).

Inductive Arg :=
| ArgString (s : string)
| ArgInt (n : Z)
| ArgBytes (b : list byte)
| ArgIP (ip : dhcpv4.IP)
| ArgError (e : string)
| ArgMessage (m : option dhcpv6.Message)
| ArgDHCPv6 (d : dhcpv6.DHCPv6)
| ArgDHCPv4 (d : dhcpv4.DHCPv4).

Inductive Event :=
| Inc (counter : string) (labels : list Label)
| AddBy (counter : string) (labels : list Label) (v : Z)
| Logged (level : string) (format : string) (args : list Arg).

(** Writer monad over the event trace. *)
Definition Eff (A : Type) : Type := A * list Event.

#[global] Instance Eff_ret : MRet Eff := λ A a, (a, []).

#[global] Instance Eff_bind : MBind Eff := λ A B f m,
  let '(a, w) := m in
  let '(b, w') := f a in
  (b, w ++ w').

Definition emit (e : Event) : Eff unit := (tt, [e]).

Definition when (c : bool) (m : Eff unit) : Eff unit :=
  if c then m else mret tt.

Definition value {A} (m : Eff A) : A := m.1.
Definition trace {A} (m : Eff A) : list Event := m.2.

(** ** responsestats/plugin.go *)

Module responsestats.
Import dhcpv6.

(** The [IdentityAssociation] interface and its three implementations
    [*OptIANA], [*OptIATA] and [*OptIAPD]. *)
Inductive IdentityAssociation :=
| AsIANA (ia : OptIANA)
| AsIATA (ia : OptIATA)
| AsIAPD (ia : OptIAPD).

Definition FromIANA (ia : list OptIANA) : list IdentityAssociation := AsIANA <$> ia.
Definition FromIATA (ia : list OptIATA) : list IdentityAssociation := AsIATA <$> ia.
Definition FromIAPD (ia : list OptIAPD) : list IdentityAssociation := AsIAPD <$> ia.

Definition Id (ia : IdentityAssociation) : IAID :=
  match ia with
  | AsIANA ia => iana_IaId ia
  | AsIATA ia => iata_IaId ia
  | AsIAPD ia => iapd_IaId ia
  end.

Definition Code (ia : IdentityAssociation) : OptionCode :=
  match ia with
  | AsIANA _ => OptionIANA
  | AsIATA _ => OptionIATA
  | AsIAPD _ => OptionIAPD
  end.

Definition New (ia : IdentityAssociation) (iaid : IAID) : IdentityAssociation :=
  match ia with
  | AsIANA _ => AsIANA (mkOptIANA iaid 0 0 [])
  | AsIATA _ => AsIATA (mkOptIATA iaid [])
  | AsIAPD _ => AsIAPD (mkOptIAPD iaid 0 0 [])
  end.

Definition Allocated (ia : IdentityAssociation) : bool :=
  match ia with
  | AsIANA ia => bool_decide (OneAddress (iana_Options ia) ≠ None)
  | AsIATA ia => bool_decide (OneAddress (iata_Options ia) ≠ None)
  | AsIAPD ia => bool_decide (0 < length (Prefixes (iapd_Options ia)))%nat
  end.

Definition AddStatusUnavailable (ia : IdentityAssociation) : IdentityAssociation :=
  match ia with
  | AsIANA ia =>
      AsIANA (mkOptIANA (iana_IaId ia) (iana_T1 ia) (iana_T2 ia)
                (Options_Add (iana_Options ia) (OptStatusCode StatusNoAddrsAvail EmptyString)))
  | AsIATA ia =>
      AsIATA (mkOptIATA (iata_IaId ia)
                (Options_Add (iata_Options ia) (OptStatusCode StatusNoAddrsAvail EmptyString)))
  | AsIAPD ia =>
      AsIAPD (mkOptIAPD (iapd_IaId ia) (iapd_T1 ia) (iapd_T2 ia)
                (Options_Add (iapd_Options ia) (OptStatusCode StatusNoPrefixAvail EmptyString)))
  end.

(** An [IdentityAssociation] handed to [AddOption] is used as a
    [dhcpv6.Option] through its [Code], [ToBytes] and [String] methods,
    which are those of the library type it converts to.  The appended value
    keeps the plugin's own Go type, which this model does not record: what
    is said of a response that holds markers is said of its options as
    [Options.Get] and [ToBytes] give them, by code, within the call that
    appended them.  The library's typed getters assert the library's type,
    so reading the markers back through them, as a second call of
    [Handler6] on the same response would, is outside the model. *)
Definition ToOption (ia : IdentityAssociation) : Option :=
  match ia with
  | AsIANA ia => OptionOfIANA ia
  | AsIATA ia => OptionOfIATA ia
  | AsIAPD ia => OptionOfIAPD ia
  end.

(** [PluginState.Logger] logs a line at the level [FromArgs] chose. *)
Record PluginState := mkPluginState { Logger : string }.

Definition FromArgs (args : list string) : PluginState :=
  match args with
  | a :: _ => if bool_decide (a = "silent") then mkPluginState "debug"
              else mkPluginState "info"
  | [] => mkPluginState "info"
  end.

(** The inner loop of [ia_fixup]: scan [response_ias] for [iaid], count
    the first entry that has it, and stop there. *)
Fixpoint scan_response (iaid : IAID) (response_ias : list IdentityAssociation)
    (satisfied unsatisfied : Z) : bool * Z * Z :=
  match response_ias with
  | [] => (false, satisfied, unsatisfied)
  | respia :: rest =>
      let respiaid := Id respia in
      if bytes_Compare (IAID_slice iaid) (IAID_slice respiaid) =? 0 then
        if Allocated respia then (true, satisfied + 1, unsatisfied)
        else (true, satisfied, unsatisfied + 1)
      else scan_response iaid rest satisfied unsatisfied
  end.

(** The variables of [ia_fixup]; [resp] is the response object behind the
    pointer, which [AddOption] changes in place. *)
Record fixup_state := mkFixup {
  satisfied : Z;
  unsatisfied : Z;
  newstatus : Z;
  resp_obj : DHCPv6
}.

(** One iteration of the outer loop. *)
Definition fixup_body (response_ias : list IdentityAssociation)
    (st : fixup_state) (reqia : IdentityAssociation) : fixup_state :=
  let iaid := Id reqia in
  let '(found, satisfied, unsatisfied) :=
    scan_response iaid response_ias (satisfied st) (unsatisfied st) in
  if negb found then
    let newresp := New reqia iaid in
    let newresp := AddStatusUnavailable newresp in
    mkFixup satisfied (unsatisfied + 1) (newstatus st + 1)
            (AddOption (resp_obj st) (ToOption newresp))
  else mkFixup satisfied unsatisfied (newstatus st) (resp_obj st).

(** [ia_fixup]: the quantifier, the number of status codes added, and the
    response object as the calls of [AddOption] left it. *)
Definition ia_fixup (resp : DHCPv6) (request_ias response_ias : list IdentityAssociation)
    : string * Z * DHCPv6 :=
  let st := foldl (fixup_body response_ias) (mkFixup 0 0 0 resp) request_ias in
  if unsatisfied st =? 0 then ("all", newstatus st, resp_obj st)
  else if satisfied st =? 0 then ("none", newstatus st, resp_obj st)
  else ("some", newstatus st, resp_obj st).

(** What a DHCPv6 handler leaves behind: the values it returns, and the
    response object it was given, which it may have changed in place. *)
Record Outcome6 := mkOutcome6 {
  returned : option DHCPv6;
  drop : bool;
  response : DHCPv6
}.

(** [respmsg] is a pointer to the message held by the interface value
    [resp]: reading through it after an [AddOption] on [resp] sees the
    added option. *)
Definition deref (resp : DHCPv6) (respmsg : Message) : Message :=
  match resp with
  | IsMessage m => m
  | IsRelayMessage _ _ _ => respmsg
  end.

Definition Handler6 (state : PluginState) (req resp : DHCPv6) : Eff Outcome6 :=
  match resp with
  | IsRelayMessage _ _ _ =>
      emit (Inc "v6types" [Lit "error"]);;
      emit (Logged "error" "response message format bug: %v" [ArgMessage None]);;
      mret (mkOutcome6 None true resp)
  | IsMessage respmsg =>
      match req with
      | IsRelayMessage _ _ _ =>
          emit (Inc "v6types" [Lit "error"]);;
          emit (Logged "error" "request message format bug: %v" [ArgMessage (Some respmsg)]);;
          mret (mkOutcome6 None true resp)
      | IsMessage reqmsg =>
          when (IsRelay (IsMessage reqmsg)) (emit (Inc "v6relay" []));;
          emit (Inc "v6types" [TypeString (MessageType_ respmsg)]);;
          let all_adds := 0 in
          '(resp, all_adds) ←
            (if bool_decide (0 < length (IANA (Options reqmsg)))%nat then
               let '(quantifier, adds, resp) :=
                 ia_fixup resp (FromIANA (IANA (Options reqmsg)))
                               (FromIANA (IANA (Options (deref resp respmsg)))) in
               emit (Inc "v6processed" [Lit "IA_NA"; Lit quantifier]);;
               mret (resp, all_adds + adds)
             else mret (resp, all_adds));
          '(resp, all_adds) ←
            (if bool_decide (0 < length (IATA (Options reqmsg)))%nat then
               let '(quantifier, adds, resp) :=
                 ia_fixup resp (FromIATA (IATA (Options reqmsg)))
                               (FromIATA (IATA (Options (deref resp respmsg)))) in
               emit (Inc "v6processed" [Lit "IA_TA"; Lit quantifier]);;
               mret (resp, all_adds + adds)
             else mret (resp, all_adds));
          '(resp, all_adds) ←
            (if bool_decide (0 < length (IAPD (Options reqmsg)))%nat then
               let '(quantifier, adds, resp) :=
                 ia_fixup resp (FromIAPD (IAPD (Options reqmsg)))
                               (FromIAPD (IAPD (Options (deref resp respmsg)))) in
               emit (Inc "v6processed" [Lit "IA_PD"; Lit quantifier]);;
               mret (resp, all_adds + adds)
             else mret (resp, all_adds));
          (if 0 <? all_adds then
             emit (Logged (Logger state) "[added %d statuscodes] %s" [ArgInt all_adds; ArgDHCPv6 resp])
           else
             emit (Logged (Logger state) "%s" [ArgDHCPv6 resp]));;
          mret (mkOutcome6 (Some resp) false resp)
      end
  end.

(** The interface label of a relayed DHCPv4 exchange (the [intfstr] of
    [Handler4]): the circuit id, else the remote id, else a placeholder. *)
Definition intfstr_of (rai : dhcpv4.Options) : string :=
  let intfstr := dhcpv4.GetString dhcpv4.AgentCircuitIDSubOption rai in
  if bool_decide (String.length intfstr = 0%nat) then
    let intfstr := dhcpv4.GetString dhcpv4.AgentRemoteIDSubOption rai in
    if bool_decide (String.length intfstr = 0%nat) then "<unspecified>"
    else intfstr
  else intfstr.

(** [Handler4] only reads its arguments; it returns the response pointer
    it was given. *)
Definition Handler4 (state : PluginState) (req resp : dhcpv4.DHCPv4)
    : Eff (dhcpv4.DHCPv4 * bool) :=
  if negb (dhcpv4.OpCode req =? dhcpv4.OpcodeBootRequest) then mret (resp, false)
  else
    let mac := dhcpv4.ClientHWAddr req in
    let has_yiaddr :=
      bool_decide (0 < length (dhcpv4.YourIPAddr resp))%nat
      && negb (dhcpv4.IsUnspecified (dhcpv4.YourIPAddr resp)) in
    when ((dhcpv4.MessageType_ resp =? dhcpv4.MessageTypeAck) && has_yiaddr)
         (emit (Inc "v4processed" [Lit "all"]));;
    emit (Inc "v4types" [TypeString (dhcpv4.MessageType_ resp)]);;
    let rai := dhcpv4.RelayAgentInfo_ req in
    match rai with
    | None =>
        (if bool_decide (length (dhcpv4.GatewayIPAddr resp) = 0%nat)
            || dhcpv4.IsUnspecified (dhcpv4.GatewayIPAddr resp) then
           emit (Logged (Logger state) "MAC %s allocated %s"
                   [ArgBytes mac; ArgIP (dhcpv4.YourIPAddr req)])
         else
           emit (Logged (Logger state) "[giaddr=%s has no RAI] MAC %s allocated %s"
                   [ArgIP (dhcpv4.GatewayIPAddr resp); ArgBytes mac;
                    ArgIP (dhcpv4.YourIPAddr req)]));;
        mret (resp, false)
    | Some rai =>
        emit (Inc "v4relay" []);;
        let peerstr := ArgIP (dhcpv4.GatewayIPAddr req) in
        let linkstr :=
          match dhcpv4.GetIP dhcpv4.LinkSelectionSubOption rai with
          | Some ip => ArgIP ip
          | None => ArgString EmptyString
          end in
        let intfstr := intfstr_of rai in
        emit (Logged (Logger state) "[relay=%s link=%s intf=%s] MAC %s allocated %s"
                [peerstr; linkstr; ArgString intfstr; ArgBytes mac;
                 ArgIP (dhcpv4.YourIPAddr req)]);;
        mret (resp, false)
    end.

End responsestats.

(** ** The requeststats plugin *)

Module requeststats.
Import dhcpv6.

(** The tail of [Handler6], from the call of [DecapsulateRelayIndex] on:
    [inner] is meant to be the innermost relay message, [msg] the client
    message inside it. *)
Definition count_request (req resp : DHCPv6) : Eff (option DHCPv6 * bool) :=
  match DecapsulateRelayIndex req (-1) with
  | Err err =>
      emit (Inc "v6types" [Lit "error"]);;
      emit (Logged "error" "could not decapsulate: %v" [ArgError err]);;
      mret (None, true)
  | Ok innermsg =>
      match innermsg with
      | IsMessage _ =>
          emit (Inc "v6types" [Lit "error"]);;
          emit (Logged "error" "relay message format bug: %v" [ArgDHCPv6 innermsg]);;
          mret (None, true)
      | IsRelayMessage _ _ _ =>
          let inner := innermsg in
          match GetInnerMessage inner with
          | Err err =>
              emit (Inc "v6types" [Lit "error"]);;
              emit (Logged "error" "could not decapsulate inner message: %v" [ArgError err]);;
              mret (None, true)
          | Ok msg =>
              emit (Inc "v6types" [TypeString (MessageType_ msg)]);;
              let ianas := Z.of_nat (length (IANA (Options msg))) in
              when (0 <? ianas) (emit (AddBy "v6ia" [Lit "IA_NA"] ianas));;
              let iatas := Z.of_nat (length (IATA (Options msg))) in
              when (0 <? iatas) (emit (AddBy "v6ia" [Lit "IA_TA"] iatas));;
              let iapds := Z.of_nat (length (IAPD (Options msg))) in
              when (0 <? iapds) (emit (AddBy "v6ia" [Lit "IA_PD"] iapds));;
              mret (Some resp, false)
          end
      end
  end.

Definition Handler6 (req resp : DHCPv6) : Eff (option DHCPv6 * bool) :=
  if IsRelay req then
    emit (Inc "v6relay" []);;
    count_request req resp
  else
    match req with
    | IsMessage _ => count_request req resp
    | IsRelayMessage _ _ _ =>
        emit (Inc "v6types" [Lit "error"]);;
        emit (Logged "error" "request message format bug: %v" [ArgDHCPv6 req]);;
        mret (None, true)
    end.

(** The suboptions [Handler4] reports as missing from a Relay Agent
    Information option, in the order it reports them. *)
Definition missing_suboptions (rai : dhcpv4.Options) : Eff unit :=
  when (bool_decide (dhcpv4.GetIP dhcpv4.LinkSelectionSubOption rai = None))
       (emit (Inc "v4raimissingsuboptions" [Lit "LinkSelectionSubOption"]));;
  let intfstr := dhcpv4.GetString dhcpv4.AgentCircuitIDSubOption rai in
  when (bool_decide (String.length intfstr = 0%nat))
       (let intfstr := dhcpv4.GetString dhcpv4.AgentRemoteIDSubOption rai in
        when (bool_decide (String.length intfstr = 0%nat))
             (emit (Inc "v4raimissingsuboptions" [Lit "AgentIDSubOption"]))).

Definition Handler4 (req resp : dhcpv4.DHCPv4) : Eff (dhcpv4.DHCPv4 * bool) :=
  if negb (dhcpv4.OpCode req =? dhcpv4.OpcodeBootRequest) then
    emit (Inc "v4types" [Lit "ignored"]);;
    emit (Logged "warning" "not a BootRequest, ignoring %d" [ArgInt (dhcpv4.OpCode req)]);;
    mret (resp, false)
  else
    emit (Inc "v4types" [TypeString (dhcpv4.MessageType_ req)]);;
    let rai := dhcpv4.RelayAgentInfo_ req in
    let giaddr_invalid :=
      bool_decide (length (dhcpv4.GatewayIPAddr req) = 0%nat)
      || dhcpv4.IsUnspecified (dhcpv4.GatewayIPAddr req) in
    match rai with
    | Some rai' =>
        if giaddr_invalid then
          emit (Logged "info" "DHCPv4 request with giaddr but missing RelayAgentInfo: %s"
                  [ArgDHCPv4 req]);;
          emit (Inc "v4raimissingsuboptions" [Lit "GatewayIPAddr"]);;
          emit (Inc "v4relay" []);;
          mret (resp, false)
        else
          emit (Inc "v4relay" []);;
          missing_suboptions rai';;
          mret (resp, false)
    | None =>
        when (negb giaddr_invalid)
             (emit (Logged "info" "DHCPv4 request with RelayAgentInfo but no giaddr: %s"
                     [ArgDHCPv4 req]);;
              emit (Inc "v4raimissingsuboptions" [Lit "RelayAgentInfo"]);;
              emit (Inc "v4relay" []));;
        mret (resp, false)
    end.

End requeststats.

(** ** The vocabulary of the specification *)

#[global] Instance IAOption_eq_dec : EqDecision dhcpv6.IAOption.
Proof. solve_decision. Defined.
#[global] Instance OptIANA_eq_dec : EqDecision dhcpv6.OptIANA.
Proof. solve_decision. Defined.
#[global] Instance OptIATA_eq_dec : EqDecision dhcpv6.OptIATA.
Proof. solve_decision. Defined.
#[global] Instance OptIAPD_eq_dec : EqDecision dhcpv6.OptIAPD.
Proof. solve_decision. Defined.
#[global] Instance Option_eq_dec : EqDecision dhcpv6.Option.
Proof. solve_decision. Defined.
#[global] Instance IdentityAssociation_eq_dec : EqDecision responsestats.IdentityAssociation.
Proof. solve_decision. Defined.

Module reconcile.
Import dhcpv6 responsestats.

(** The option list of a message, whichever implementation it is. *)
Definition options_of (d : DHCPv6) : list Option :=
  match d with
  | IsMessage m => Options m
  | IsRelayMessage _ _ opts => opts
  end.

Definition as_reservation (o : Option) : option IdentityAssociation :=
  match o with
  | OptionOfIANA ia => Some (AsIANA ia)
  | OptionOfIATA ia => Some (AsIATA ia)
  | OptionOfIAPD ia => Some (AsIAPD ia)
  | OptGeneric _ _ => None
  end.

(** The reservation set of one type in a message: its identity
    associations with that option code, in message order. *)
Definition reservations (code : OptionCode) (d : DHCPv6) : list IdentityAssociation :=
  filter (λ ia, Code ia = code) (omap as_reservation (options_of d)).

Definition identifiers (code : OptionCode) (d : DHCPv6) : list IAID :=
  Id <$> reservations code d.

(** The first entry of the response sequence with a given identifier. *)
Definition first_match (iaid : IAID) (response_ias : list IdentityAssociation)
    : option IdentityAssociation :=
  head (filter (λ x, Id x = iaid) response_ias).

(** A request reservation is satisfied when its first match is
    allocated, and unsatisfied otherwise. *)
Definition is_satisfied (response_ias : list IdentityAssociation)
    (r : IdentityAssociation) : bool :=
  match first_match (Id r) response_ias with
  | Some x => Allocated x
  | None => false
  end.

(** A request reservation is unmatched when no entry of the response
    sequence has its identifier. *)
Definition is_unmatched (response_ias : list IdentityAssociation)
    (r : IdentityAssociation) : bool :=
  bool_decide (Id r ∉ Id <$> response_ias).

Definition count_satisfied (request_ias response_ias : list IdentityAssociation) : nat :=
  length (filter (λ r, is_satisfied response_ias r) request_ias).

Definition count_unsatisfied (request_ias response_ias : list IdentityAssociation) : nat :=
  length (filter (λ r, ¬ is_satisfied response_ias r) request_ias).

Definition unmatched (request_ias response_ias : list IdentityAssociation)
    : list IdentityAssociation :=
  filter (λ r, Id r ∉ Id <$> response_ias) request_ias.

(** The result quantifier as the specification words it: none when
    nothing was satisfied, all when nothing was unsatisfied, else some. *)
Definition quantifier (satisfied unsatisfied : nat) : string :=
  if bool_decide (satisfied = 0%nat) then "none"
  else if bool_decide (unsatisfied = 0%nat) then "all"
  else "some".

(** The marker [ia_fixup] builds for an unmatched request reservation. *)
Definition denial (reqia : IdentityAssociation) : IdentityAssociation :=
  AddStatusUnavailable (New reqia (Id reqia)).

Definition ia_Options (ia : IdentityAssociation) : list IAOption :=
  match ia with
  | AsIANA ia => iana_Options ia
  | AsIATA ia => iata_Options ia
  | AsIAPD ia => iapd_Options ia
  end.

(** The status code the specification attaches to a denial, by type:
    no-address-available for address and temporary-address leases,
    no-prefix-available for prefix delegations. *)
Definition status_by_type (code : OptionCode) : StatusCode :=
  if bool_decide (code = OptionIAPD) then StatusNoPrefixAvail else StatusNoAddrsAvail.

(** The quantifier as [ia_fixup] computes it from its two counters. *)
Definition quantifier_of (st : fixup_state) : string :=
  if unsatisfied st =? 0 then "all" else if satisfied st =? 0 then "none" else "some".

(** The markers [ia_fixup] appends: one for each unmatched request
    reservation, in request order. *)
Definition denials (request_ias response_ias : list IdentityAssociation)
    : list IdentityAssociation :=
  denial <$> unmatched request_ias response_ias.

(** What one reconciliation block of [Handler6] does to the response:
    the markers for the request's unmatched reservations of one type are
    appended. *)
Definition reconcile_type (code : OptionCode) (req resp : DHCPv6) : DHCPv6 :=
  foldl AddOption resp
    (ToOption <$> denials (reservations code req) (reservations code resp)).

Definition reconcile_all (req resp : DHCPv6) : DHCPv6 :=
  reconcile_type OptionIAPD req
    (reconcile_type OptionIATA req (reconcile_type OptionIANA req resp)).

(** Identifiers are unique per message per reservation type. *)
Definition unique_per_type (d : DHCPv6) : Prop :=
  Forall (λ code, NoDup (identifiers code d)) [OptionIANA; OptionIATA; OptionIAPD].

#[global] Instance unique_per_type_dec (d : DHCPv6) : Decision (unique_per_type d).
Proof. unfold unique_per_type. apply _. Defined.

End reconcile.

Module unwrap.
Import dhcpv6.

(** A chain of relay envelopes around [inner], outermost first. *)
Fixpoint encapsulate (envelopes : list (RelayFields * list Option)) (inner : DHCPv6) : DHCPv6 :=
  match envelopes with
  | [] => inner
  | (f, opts) :: rest => IsRelayMessage f (Some (encapsulate rest inner)) opts
  end.

(** The nesting depth of a message: the number of relay envelopes around
    its innermost message. *)
Fixpoint depth (d : DHCPv6) : nat :=
  match d with
  | IsMessage _ => 0
  | IsRelayMessage _ None _ => 1
  | IsRelayMessage _ (Some inner) _ => S (depth inner)
  end.

(** The counts of requested identity associations that the request-side
    [Handler6] adds for a client message, in the order it adds them. *)
Definition requested_ias (msg : Message) : list Event :=
  let count (label : string) (n : Z) : list Event :=
    if 0 <? n then [AddBy "v6ia" [Lit label] n] else [] in
  count "IA_NA" (Z.of_nat (length (IANA (Options msg))))
  ++ count "IA_TA" (Z.of_nat (length (IATA (Options msg))))
  ++ count "IA_PD" (Z.of_nat (length (IAPD (Options msg)))).

End unwrap.

(** ** Reading a trace *)

Module observe.
Import dhcpv6 responsestats reconcile.

(** The label values a counter was incremented with, in trace order. *)
Definition counted (counter : string) (tr : list Event) : list (list Label) :=
  omap (λ e, match e with
             | Inc c labels => if bool_decide (c = counter) then Some labels else None
             | _ => None
             end) tr.

(** The amounts added to a counter, with their label values. *)
Definition added (counter : string) (tr : list Event) : list (list Label * Z) :=
  omap (λ e, match e with
             | AddBy c labels v => if bool_decide (c = counter) then Some (labels, v) else None
             | _ => None
             end) tr.

(** The log lines of a trace: level, format and arguments. *)
Definition logged (tr : list Event) : list (string * string * list Arg) :=
  omap (λ e, match e with
             | Logged level format args => Some (level, format, args)
             | _ => None
             end) tr.

(** A trace with the lines logged at level info moved to another level. *)
Definition relevel (level : string) (e : Event) : Event :=
  match e with
  | Logged l format args =>
      if bool_decide (l = "info") then Logged level format args else e
  | _ => e
  end.

(** The increment of v6processed that the block of [Handler6] for one
    reservation type makes: none when the request has no reservation of the
    type, else one, labelled with the quantifier. *)
Definition processed (label : string) (code : OptionCode) (req resp : DHCPv6) : list Event :=
  if bool_decide (reservations code req = []) then []
  else [Inc "v6processed"
          [Lit label;
           Lit (ia_fixup resp (reservations code req) (reservations code resp)).1.1]].

(** The number of options a response gained. *)
Definition gained (before after : DHCPv6) : Z :=
  Z.of_nat (length (options_of after)) - Z.of_nat (length (options_of before)).

(** Whether the gateway address of a DHCPv4 request is unusable, as the
    request-side [Handler4] tests it. *)
Definition giaddr_invalid (req : dhcpv4.DHCPv4) : bool :=
  bool_decide (length (dhcpv4.GatewayIPAddr req) = 0%nat)
  || dhcpv4.IsUnspecified (dhcpv4.GatewayIPAddr req).

(** Whether the response-side [Handler4] counts a response as a processed
    lease: an ACK that carries an address. *)
Definition lease_acked (resp : dhcpv4.DHCPv4) : bool :=
  (dhcpv4.MessageType_ resp =? dhcpv4.MessageTypeAck)
  && (bool_decide (0 < length (dhcpv4.YourIPAddr resp))%nat
      && negb (dhcpv4.IsUnspecified (dhcpv4.YourIPAddr resp))).

(** The events of the request-side [Handler4], by the path it takes. *)
Definition request4_trace (req : dhcpv4.DHCPv4) : list Event :=
  if dhcpv4.OpCode req =? dhcpv4.OpcodeBootRequest then
    Inc "v4types" [TypeString (dhcpv4.MessageType_ req)]
    :: match dhcpv4.RelayAgentInfo_ req, giaddr_invalid req with
       | Some _, true =>
           [Logged "info" "DHCPv4 request with giaddr but missing RelayAgentInfo: %s"
                   [ArgDHCPv4 req];
            Inc "v4raimissingsuboptions" [Lit "GatewayIPAddr"];
            Inc "v4relay" []]
       | Some rai, false =>
           Inc "v4relay" [] :: trace (requeststats.missing_suboptions rai)
       | None, false =>
           [Logged "info" "DHCPv4 request with RelayAgentInfo but no giaddr: %s"
                   [ArgDHCPv4 req];
            Inc "v4raimissingsuboptions" [Lit "RelayAgentInfo"];
            Inc "v4relay" []]
       | None, true => []
       end
  else
    [Inc "v4types" [Lit "ignored"];
     Logged "warning" "not a BootRequest, ignoring %d" [ArgInt (dhcpv4.OpCode req)]].

End observe.

(** ** Sample messages *)

Module sample.
Import dhcpv6 responsestats.

Definition idA : IAID := (Byte.x00, Byte.x00, Byte.x00, Byte.x0a).
Definition idB : IAID := (Byte.x00, Byte.x00, Byte.x00, Byte.x0b).
Definition idC : IAID := (Byte.x00, Byte.x00, Byte.x00, Byte.x0c).

Definition addr1 : IAOption :=
  OptIAAddress (replicate 15 Byte.x00 ++ [Byte.x01]) 3600 7200.

Definition allocated (iaid : IAID) : OptIANA := mkOptIANA iaid 0 0 [addr1].
Definition unallocated (iaid : IAID) : OptIANA := mkOptIANA iaid 0 0 [].
Definition requested (iaid : IAID) : OptIANA := mkOptIANA iaid 0 0 [].

Definition MessageTypeSolicit : MessageType := 1.
Definition MessageTypeAdvertise : MessageType := 2.

Definition solicit (ias : list OptIANA) : Message :=
  mkMessage MessageTypeSolicit [Byte.x01; Byte.x02; Byte.x03] (OptionOfIANA <$> ias).

Definition advertise (ias : list OptIANA) : Message :=
  mkMessage MessageTypeAdvertise [Byte.x01; Byte.x02; Byte.x03] (OptionOfIANA <$> ias).

Definition MessageTypeRelayForward : MessageType := 12.

Definition relay1 : RelayFields :=
  mkRelayFields MessageTypeRelayForward 0 (replicate 16 Byte.x00) (replicate 16 Byte.x00).

Definition state : PluginState := FromArgs [].

Definition relay_forward (inner : Message) : DHCPv6 :=
  IsRelayMessage relay1 (Some (IsMessage inner)) [].

(** Requests A, B and C against a response with A allocated and B not. *)
Definition request_abc : Message :=
  solicit [requested idA; requested idB; requested idC].

Definition response_ab : Message :=
  advertise [allocated idA; unallocated idB].

(** A response that lists identifier A twice: first without an address,
    then with one. *)
Definition response_aa : list IdentityAssociation :=
  FromIANA [unallocated idB; unallocated idA; allocated idA].

Definition eth0 : list byte := String.list_byte_of_string "eth0".

Definition relayed4 (rai : dhcpv4.Options) : dhcpv4.DHCPv4 :=
  dhcpv4.mkDHCPv4 dhcpv4.OpcodeBootRequest
    [Byte.x00; Byte.x11; Byte.x22; Byte.x33; Byte.x44; Byte.x55]
    [] [Byte.x0a; Byte.x00; Byte.x00; Byte.x01] 1 (Some rai).

(** Relay Agent Information with an empty circuit id and remote id eth0. *)
Definition rai_eth0 : dhcpv4.Options :=
  <[dhcpv4.AgentRemoteIDSubOption := eth0]> (<[dhcpv4.AgentCircuitIDSubOption := []]> ∅).

Definition offer4 : dhcpv4.DHCPv4 :=
  dhcpv4.mkDHCPv4 dhcpv4.OpcodeBootReply
    [Byte.x00; Byte.x11; Byte.x22; Byte.x33; Byte.x44; Byte.x55]
    [Byte.x0a; Byte.x00; Byte.x00; Byte.x63] [Byte.x0a; Byte.x00; Byte.x00; Byte.x01]
    2 None.

End sample.

Module sample4.

(** A DHCPv4 request that names a gateway but carries no Relay Agent
    Information. *)
Definition via_gateway : dhcpv4.DHCPv4 :=
  dhcpv4.mkDHCPv4 dhcpv4.OpcodeBootRequest
    [Byte.x00; Byte.x11; Byte.x22; Byte.x33; Byte.x44; Byte.x55]
    [] [Byte.x0a; Byte.x00; Byte.x00; Byte.x01] 1 None.

(** A reply sent by a server, seen as a request. *)
Definition reply_as_request : dhcpv4.DHCPv4 :=
  dhcpv4.mkDHCPv4 dhcpv4.OpcodeBootReply
    [Byte.x00; Byte.x11; Byte.x22; Byte.x33; Byte.x44; Byte.x55]
    [] [] 2 None.

(** An ACK carrying the address 10.0.0.99. *)
Definition ack : dhcpv4.DHCPv4 :=
  dhcpv4.mkDHCPv4 dhcpv4.OpcodeBootReply
    [Byte.x00; Byte.x11; Byte.x22; Byte.x33; Byte.x44; Byte.x55]
    [Byte.x0a; Byte.x00; Byte.x00; Byte.x63] [] dhcpv4.MessageTypeAck None.

(** A boot request that carries Relay Agent Information and no gateway
    address. *)
Definition no_gateway (rai : dhcpv4.Options) : dhcpv4.DHCPv4 :=
  dhcpv4.mkDHCPv4 dhcpv4.OpcodeBootRequest
    [Byte.x00; Byte.x11; Byte.x22; Byte.x33; Byte.x44; Byte.x55]
    [] [] 1 (Some rai).

End sample4.

Import dhcpv6 responsestats reconcile.

(** * Properties *)

(** ** Comparing identifiers *)

Lemma byte_val_inj (x y : byte) : byte_val x = byte_val y → x = y.
Proof.
  unfold byte_val. intros H%N2Z.inj.
  assert (Hx := Byte.of_to_N x). rewrite H, Byte.of_to_N in Hx. congruence.
Qed.

Lemma bytes_Compare_refl (a : list byte) : bytes_Compare a a = 0.
Proof. induction a as [|x a IH]; simpl; [done|]. by rewrite Z.ltb_irrefl. Qed.

Lemma bytes_Compare_eq (a b : list byte) : bytes_Compare a b = 0 ↔ a = b.
Proof.
  split; [|intros ->; apply bytes_Compare_refl].
  revert b. induction a as [|x a IH]; intros [|y b]; simpl; try done.
  destruct (Z.ltb_spec (byte_val x) (byte_val y)); [done|].
  destruct (Z.ltb_spec (byte_val y) (byte_val x)); [done|].
  intros ->%IH. f_equal. apply byte_val_inj. lia.
Qed.

Lemma IAID_slice_inj (i j : IAID) : IAID_slice i = IAID_slice j → i = j.
Proof. destruct i as [[[a b] c] d], j as [[[a' b'] c'] d']. simpl. congruence. Qed.

Lemma same_iaid (i j : IAID) :
  (bytes_Compare (IAID_slice i) (IAID_slice j) =? 0) = bool_decide (i = j).
Proof.
  destruct (Z.eqb_spec (bytes_Compare (IAID_slice i) (IAID_slice j)) 0) as [H|H].
  - apply bytes_Compare_eq, IAID_slice_inj in H. by rewrite bool_decide_eq_true_2.
  - rewrite bool_decide_eq_false_2; [done|]. intros ->. by rewrite bytes_Compare_refl in H.
Qed.

(** ** The loops of [ia_fixup] *)

Lemma first_match_cons (iaid : IAID) (x : IdentityAssociation) (l : list IdentityAssociation) :
  first_match iaid (x :: l) = if bool_decide (Id x = iaid) then Some x else first_match iaid l.
Proof.
  unfold first_match. rewrite filter_cons. case_bool_decide; by case_decide.
Qed.

(** The inner loop finds the first match and counts it once. *)
Lemma scan_response_first_match (iaid : IAID) (response_ias : list IdentityAssociation) (s u : Z) :
  scan_response iaid response_ias s u =
    match first_match iaid response_ias with
    | Some x => if Allocated x then (true, s + 1, u) else (true, s, u + 1)
    | None => (false, s, u)
    end.
Proof.
  induction response_ias as [|x l IH]; [done|].
  rewrite first_match_cons. simpl. rewrite same_iaid.
  repeat case_bool_decide; try done; congruence.
Qed.

Lemma first_match_None (iaid : IAID) (l : list IdentityAssociation) :
  first_match iaid l = None ↔ iaid ∉ Id <$> l.
Proof.
  induction l as [|x l IH].
  { split; [intros _ H; by apply elem_of_nil in H|done]. }
  rewrite first_match_cons, fmap_cons, not_elem_of_cons.
  case_bool_decide; [|rewrite IH]; intuition congruence.
Qed.

Lemma first_match_Some (iaid : IAID) (l : list IdentityAssociation) (x : IdentityAssociation) :
  first_match iaid l = Some x → x ∈ l ∧ Id x = iaid.
Proof.
  unfold first_match. intros H%head_Some_elem_of. by apply list_elem_of_filter in H as [? ?].
Qed.

Lemma fixup_body_spec (response_ias : list IdentityAssociation) (st : fixup_state)
    (reqia : IdentityAssociation) :
  fixup_body response_ias st reqia =
    if is_satisfied response_ias reqia then
      mkFixup (satisfied st + 1) (unsatisfied st) (newstatus st) (resp_obj st)
    else if is_unmatched response_ias reqia then
      mkFixup (satisfied st) (unsatisfied st + 1) (newstatus st + 1)
              (AddOption (resp_obj st) (ToOption (denial reqia)))
    else
      mkFixup (satisfied st) (unsatisfied st + 1) (newstatus st) (resp_obj st).
Proof.
  unfold fixup_body, is_satisfied, is_unmatched, denial.
  rewrite scan_response_first_match.
  destruct (first_match (Id reqia) response_ias) as [x|] eqn:Hm.
  - rewrite bool_decide_eq_false_2.
    + by destruct (Allocated x).
    + rewrite <- first_match_None. congruence.
  - apply first_match_None in Hm. by rewrite bool_decide_eq_true_2.
Qed.

Lemma fixup_loop_spec (response_ias request_ias : list IdentityAssociation) (st : fixup_state) :
  foldl (fixup_body response_ias) st request_ias =
    mkFixup (satisfied st + Z.of_nat (count_satisfied request_ias response_ias))
            (unsatisfied st + Z.of_nat (count_unsatisfied request_ias response_ias))
            (newstatus st + Z.of_nat (length (unmatched request_ias response_ias)))
            (foldl AddOption (resp_obj st) (ToOption <$> denials request_ias response_ias)).
Proof.
  revert st. induction request_ias as [|r l IH]; intros st.
  - destruct st. simpl. unfold count_satisfied, count_unsatisfied, denials, unmatched. simpl.
    f_equal; lia.
  - simpl. rewrite IH, fixup_body_spec.
    unfold count_satisfied, count_unsatisfied, denials, unmatched, is_unmatched in *.
    rewrite !filter_cons.
    assert (Hsu : is_satisfied response_ias r = true → Id r ∈ Id <$> response_ias).
    { unfold is_satisfied. destruct (first_match _ _) as [x|] eqn:Hm; [|done].
      intros _. apply first_match_Some in Hm as [? <-]. by apply list_elem_of_fmap_2. }
    destruct (is_satisfied response_ias r) eqn:Hs.
    + rewrite decide_True, decide_False, decide_False by (simpl; tauto).
      simpl. f_equal; lia.
    + rewrite decide_False, decide_True by (simpl; tauto).
      case_bool_decide; case_decide; try done; simpl; f_equal; lia.
Qed.

Lemma options_of_AddOption (d : DHCPv6) (o : Option) :
  options_of (AddOption d o) = options_of d ++ [o].
Proof. by destruct d. Qed.

Lemma options_of_foldl_AddOption (os : list Option) (d : DHCPv6) :
  options_of (foldl AddOption d os) = options_of d ++ os.
Proof.
  revert d. induction os as [|o os IH]; intros d; simpl.
  - by rewrite app_nil_r.
  - by rewrite IH, options_of_AddOption, <- app_assoc.
Qed.

Lemma ia_fixup_unfold (resp : DHCPv6) (request_ias response_ias : list IdentityAssociation) :
  ia_fixup resp request_ias response_ias =
    let st := foldl (fixup_body response_ias) (mkFixup 0 0 0 resp) request_ias in
    (quantifier_of st, newstatus st, resp_obj st).
Proof.
  unfold ia_fixup, quantifier_of. simpl.
  destruct (unsatisfied _ =? 0); [done|]. by destruct (satisfied _ =? 0).
Qed.

Lemma count_total (request_ias response_ias : list IdentityAssociation) :
  (count_satisfied request_ias response_ias + count_unsatisfied request_ias response_ias
   = length request_ias)%nat.
Proof.
  unfold count_satisfied, count_unsatisfied.
  induction request_ias as [|r l IH]; [done|].
  rewrite !filter_cons.
  destruct (is_satisfied response_ias r).
  - rewrite decide_True, decide_False by (simpl; tauto). simpl. lia.
  - rewrite decide_False, decide_True by (simpl; tauto). simpl. lia.
Qed.

Lemma ia_fixup_eq (resp : DHCPv6) (request_ias response_ias : list IdentityAssociation) :
  ia_fixup resp request_ias response_ias =
    (quantifier_of (mkFixup (Z.of_nat (count_satisfied request_ias response_ias))
                            (Z.of_nat (count_unsatisfied request_ias response_ias)) 0 resp),
     Z.of_nat (length (unmatched request_ias response_ias)),
     foldl AddOption resp (ToOption <$> denials request_ias response_ias)).
Proof. by rewrite ia_fixup_unfold, fixup_loop_spec. Qed.

(** ** Denial markers *)

Lemma denial_Id (r : IdentityAssociation) : Id (denial r) = Id r.
Proof. by destruct r. Qed.

Lemma denial_Code (r : IdentityAssociation) : Code (denial r) = Code r.
Proof. by destruct r. Qed.

Lemma denial_Options (r : IdentityAssociation) :
  ia_Options (denial r) = [OptStatusCode (status_by_type (Code r)) EmptyString].
Proof. by destruct r. Qed.

Lemma denial_not_Allocated (r : IdentityAssociation) : Allocated (denial r) = false.
Proof. by destruct r. Qed.

Lemma as_reservation_ToOption (ia : IdentityAssociation) :
  as_reservation (ToOption ia) = Some ia.
Proof. by destruct ia. Qed.

Lemma omap_as_reservation_ToOption (ias : list IdentityAssociation) :
  omap as_reservation (ToOption <$> ias) = ias.
Proof.
  induction ias as [|ia ias IH]; [done|].
  csimpl. by rewrite as_reservation_ToOption, IH.
Qed.

(** Appending identity associations to a message extends its reservation
    set of a type by those of that type. *)
Lemma reservations_foldl_AddOption (code : OptionCode) (d : DHCPv6)
    (ias : list IdentityAssociation) :
  reservations code (foldl AddOption d (ToOption <$> ias)) =
    reservations code d ++ filter (λ ia, Code ia = code) ias.
Proof.
  unfold reservations.
  by rewrite options_of_foldl_AddOption, omap_app, omap_as_reservation_ToOption, filter_app.
Qed.

Lemma FromIANA_reservations (d : DHCPv6) :
  FromIANA (IANA (options_of d)) = reservations OptionIANA d.
Proof.
  unfold FromIANA, IANA, reservations.
  induction (options_of d) as [|o l IH]; [done|].
  destruct o; simpl; rewrite ?filter_cons; simpl;
    repeat case_decide; try done; rewrite ?fmap_cons; by f_equal.
Qed.

Lemma FromIATA_reservations (d : DHCPv6) :
  FromIATA (IATA (options_of d)) = reservations OptionIATA d.
Proof.
  unfold FromIATA, IATA, reservations.
  induction (options_of d) as [|o l IH]; [done|].
  destruct o; simpl; rewrite ?filter_cons; simpl;
    repeat case_decide; try done; rewrite ?fmap_cons; by f_equal.
Qed.

Lemma FromIAPD_reservations (d : DHCPv6) :
  FromIAPD (IAPD (options_of d)) = reservations OptionIAPD d.
Proof.
  unfold FromIAPD, IAPD, reservations.
  induction (options_of d) as [|o l IH]; [done|].
  destruct o; simpl; rewrite ?filter_cons; simpl;
    repeat case_decide; try done; rewrite ?fmap_cons; by f_equal.
Qed.

Lemma reservations_Code (code : OptionCode) (d : DHCPv6) (x : IdentityAssociation) :
  x ∈ reservations code d → Code x = code.
Proof. unfold reservations. by intros [? _]%list_elem_of_filter. Qed.

(** ** Reconciliation *)

(** C2: for a non-empty request sequence [ia_fixup] returns the quantifier
    of the specification -- none when no request reservation is satisfied,
    all when none is unsatisfied, some otherwise, a request reservation
    being satisfied when its first identifier match in the response sequence
    is allocated -- and the number of status codes it added is the number of
    request reservations without a match, each of which got one marker. *)
Theorem ia_fixup_quantifier (resp : DHCPv6)
    (request_ias response_ias : list IdentityAssociation) :
  request_ias ≠ [] →
  ia_fixup resp request_ias response_ias =
    (quantifier (count_satisfied request_ias response_ias)
                (count_unsatisfied request_ias response_ias),
     Z.of_nat (length (unmatched request_ias response_ias)),
     foldl AddOption resp (ToOption <$> denials request_ias response_ias)).
Proof.
  intros Hne. rewrite ia_fixup_eq. f_equal. f_equal.
  assert (Hlen : (0 < length request_ias)%nat) by (destruct request_ias; [done|simpl; lia]).
  pose proof (count_total request_ias response_ias) as Htot.
  unfold quantifier_of, quantifier. simpl.
  repeat case_bool_decide;
    repeat match goal with |- context [?a =? ?b] => destruct (Z.eqb_spec a b) end;
    try done; lia.
Qed.

(** Requests A, B, C against a response with A allocated and B unallocated:
    the quantifier is some, and one status code is added, for C. *)
Lemma ia_fixup_quantifier_witness :
  FromIANA (IANA (Options sample.request_abc)) ≠ []
  ∧ ia_fixup (IsMessage sample.response_ab)
             (FromIANA (IANA (Options sample.request_abc)))
             (FromIANA (IANA (Options sample.response_ab)))
    = ("some", 1,
       IsMessage (sample.advertise
         [sample.allocated sample.idA; sample.unallocated sample.idB;
          mkOptIANA sample.idC 0 0 [OptStatusCode StatusNoAddrsAvail EmptyString]])).
Proof.
  split; [done|].
  etrans; [apply ia_fixup_quantifier; done|].
  vm_compute. reflexivity.
Defined.

(** All three requested and all three allocated: all, nothing added. *)
Example ia_fixup_all :
  ia_fixup (IsMessage (sample.advertise (sample.allocated <$> [sample.idA; sample.idB; sample.idC])))
           (FromIANA (IANA (Options sample.request_abc)))
           (FromIANA (sample.allocated <$> [sample.idA; sample.idB; sample.idC]))
  = ("all", 0,
     IsMessage (sample.advertise (sample.allocated <$> [sample.idA; sample.idB; sample.idC]))).
Proof. vm_compute. reflexivity. Qed.

(** All three requested and none in the response: none, three markers. *)
Example ia_fixup_none :
  ia_fixup (IsMessage (sample.advertise []))
           (FromIANA (IANA (Options sample.request_abc))) []
  = ("none", 3,
     IsMessage (sample.advertise
       ((λ iaid, mkOptIANA iaid 0 0 [OptStatusCode StatusNoAddrsAvail EmptyString])
          <$> [sample.idA; sample.idB; sample.idC]))).
Proof. vm_compute. reflexivity. Qed.

(** Nothing requested: [ia_fixup] would answer all; [Handler6] does not
    call it then. *)
Example ia_fixup_empty (resp : DHCPv6) (response_ias : list IdentityAssociation) :
  ia_fixup resp [] response_ias = ("all", 0, resp).
Proof. reflexivity. Qed.

(** C3: the markers [ia_fixup] appends correspond one to one, in order, to
    the unmatched request reservations; each has the identifier and the
    option code of its request reservation, no granted resource, and as its
    only content the status code chosen by type; the returned count is the
    number of markers. *)
Theorem ia_fixup_denial_markers (resp : DHCPv6)
    (request_ias response_ias : list IdentityAssociation) :
  ∃ markers : list IdentityAssociation,
    options_of (ia_fixup resp request_ias response_ias).2 =
      options_of resp ++ (ToOption <$> markers)
    ∧ (ia_fixup resp request_ias response_ias).1.2 = Z.of_nat (length markers)
    ∧ Forall2 (λ marker reqia,
                 Id marker = Id reqia
                 ∧ Code marker = Code reqia
                 ∧ Allocated marker = false
                 ∧ ia_Options marker =
                     [OptStatusCode (status_by_type (Code reqia)) EmptyString])
              markers (unmatched request_ias response_ias).
Proof.
  exists (denials request_ias response_ias).
  rewrite ia_fixup_eq. simpl. rewrite options_of_foldl_AddOption.
  split; [done|]. unfold denials. split; [by rewrite length_fmap|].
  apply Forall2_fmap_l, Forall_Forall2_diag, Forall_forall. intros r _.
  unfold compose. by rewrite denial_Id, denial_Code, denial_not_Allocated, denial_Options.
Qed.

(** C6: when the response sequence holds several entries with the
    identifier of a request reservation R, the iteration of [ia_fixup] for R
    counts R by the first of them alone: whatever follows it is not looked
    at, and no marker is added for R. *)
Theorem first_match_wins (st : fixup_state) (R x : IdentityAssociation)
    (before after : list IdentityAssociation) :
  (∀ y, y ∈ before → Id y ≠ Id R) →
  Id x = Id R →
  is_satisfied (before ++ x :: after) R = Allocated x
  ∧ fixup_body (before ++ x :: after) st R =
      if Allocated x then
        mkFixup (satisfied st + 1) (unsatisfied st) (newstatus st) (resp_obj st)
      else
        mkFixup (satisfied st) (unsatisfied st + 1) (newstatus st) (resp_obj st).
Proof.
  intros Hbefore Hx.
  assert (Hm : first_match (Id R) (before ++ x :: after) = Some x).
  { induction before as [|y l IH]; simpl.
    - by rewrite first_match_cons, bool_decide_eq_true_2.
    - rewrite first_match_cons, bool_decide_eq_false_2.
      + apply IH. intros z Hz. apply Hbefore. by right.
      + apply Hbefore. by left. }
  unfold fixup_body, is_satisfied.
  rewrite scan_response_first_match, Hm.
  split; [done|]. by destruct (Allocated x).
Qed.

(** A response with identifier A twice, unallocated then allocated: the
    request for A counts as unsatisfied. *)
Lemma first_match_wins_witness :
  is_satisfied sample.response_aa (AsIANA (sample.requested sample.idA)) = false
  ∧ fixup_body sample.response_aa (mkFixup 0 0 0 (IsMessage sample.response_ab))
               (AsIANA (sample.requested sample.idA))
    = mkFixup 0 1 0 (IsMessage sample.response_ab).
Proof.
  apply (first_match_wins (mkFixup 0 0 0 (IsMessage sample.response_ab))
           (AsIANA (sample.requested sample.idA))
           (AsIANA (sample.unallocated sample.idA))
           [AsIANA (sample.unallocated sample.idB)]
           [AsIANA (sample.allocated sample.idA)]).
  - intros y Hy. apply list_elem_of_singleton in Hy. by subst y.
  - reflexivity.
Defined.

(** C1: after [ia_fixup] has run on the request reservations of one type
    and the response's reservations of that type, every request identifier
    is in the response's reservation set of that type, as an entry the
    response already had or as the marker appended for it. *)
Theorem ia_fixup_complete (code : OptionCode) (resp : DHCPv6)
    (request_ias : list IdentityAssociation) :
  (∀ r, r ∈ request_ias → Code r = code) →
  ∀ r, r ∈ request_ias →
    ∃ x, x ∈ reservations code (ia_fixup resp request_ias (reservations code resp)).2
         ∧ Id x = Id r
         ∧ (x ∈ reservations code resp
            ∨ ((Id r ∉ identifiers code resp) ∧ x = denial r)).
Proof.
  intros Hcode r Hr. rewrite ia_fixup_eq. simpl.
  rewrite reservations_foldl_AddOption.
  destruct (decide (Id r ∈ identifiers code resp)) as [Hin|Hnin].
  - apply list_elem_of_fmap in Hin as (x & Hid & Hx).
    exists x. split; [|by auto]. apply elem_of_app. by left.
  - exists (denial r). split; [|by rewrite denial_Id; auto].
    apply elem_of_app. right. apply list_elem_of_filter.
    split; [by rewrite denial_Code; auto|].
    unfold denials, unmatched. apply list_elem_of_fmap_2, list_elem_of_filter. done.
Qed.

Lemma ia_fixup_complete_witness :
  ∃ x, x ∈ reservations OptionIANA
             (ia_fixup (IsMessage sample.response_ab)
                       (FromIANA (IANA (Options sample.request_abc)))
                       (reservations OptionIANA (IsMessage sample.response_ab))).2
       ∧ Id x = Id (AsIANA (sample.requested sample.idC))
       ∧ (x ∈ reservations OptionIANA (IsMessage sample.response_ab)
          ∨ ((Id (AsIANA (sample.requested sample.idC))
                ∉ identifiers OptionIANA (IsMessage sample.response_ab))
             ∧ x = denial (AsIANA (sample.requested sample.idC)))).
Proof.
  apply (ia_fixup_complete OptionIANA (IsMessage sample.response_ab)
           (FromIANA (IANA (Options sample.request_abc)))).
  - intros r Hr. vm_compute in Hr.
    repeat (apply elem_of_cons in Hr as [->|Hr]; [reflexivity|]).
    by apply elem_of_nil in Hr.
  - vm_compute. do 2 right. left.
Defined.

(** ** The response-side DHCPv6 handler *)

Lemma value_bind {A B} (m : Eff A) (f : A → Eff B) :
  value (m ≫= f) = value (f (value m)).
Proof.
  unfold value, mbind, Eff_bind. destruct m as [a w]. simpl. by destruct (f a).
Qed.

Lemma trace_bind {A B} (m : Eff A) (f : A → Eff B) :
  trace (m ≫= f) = trace m ++ trace (f (value m)).
Proof.
  unfold value, trace, mbind, Eff_bind. destruct m as [a w]. simpl. by destruct (f a).
Qed.

Lemma IsRelay_foldl_AddOption (os : list Option) (d : DHCPv6) :
  IsRelay (foldl AddOption d os) = IsRelay d.
Proof. revert d. induction os as [|o os IH]; intros d; [done|]. simpl. rewrite IH. by destruct d. Qed.

Lemma deref_options (d : DHCPv6) (m : Message) :
  IsRelay d = false → Options (deref d m) = options_of d.
Proof. by destruct d. Qed.

(** One of the three reconciliation blocks of [Handler6]. *)
Lemma Handler6_block (label : string) (all_adds : Z) (resp : DHCPv6)
    (request_ias response_ias : list IdentityAssociation) (n : nat) :
  n = length request_ias →
  value (if bool_decide (0 < n)%nat then
           let '(quantifier, adds, resp') := ia_fixup resp request_ias response_ias in
           emit (Inc "v6processed" [Lit label; Lit quantifier]);;
           mret (resp', all_adds + adds)
         else mret (resp, all_adds))
  = (foldl AddOption resp (ToOption <$> denials request_ias response_ias),
     all_adds + Z.of_nat (length (unmatched request_ias response_ias))).
Proof.
  intros ->. case_bool_decide as Hlen.
  - by rewrite ia_fixup_eq.
  - destruct request_ias; [|simpl in Hlen; lia].
    unfold denials, unmatched. simpl. by rewrite Z.add_0_r.
Qed.

Lemma IsRelay_reconcile_type (code : OptionCode) (req resp : DHCPv6) :
  IsRelay (reconcile_type code req resp) = IsRelay resp.
Proof. apply IsRelay_foldl_AddOption. Qed.

(** On two client messages [Handler6] returns the response object, after
    the three reconciliation blocks have run on it, and does not drop. *)
Lemma Handler6_messages (state : PluginState) (reqmsg respmsg : Message) :
  value (Handler6 state (IsMessage reqmsg) (IsMessage respmsg)) =
    let resp' := reconcile_all (IsMessage reqmsg) (IsMessage respmsg) in
    mkOutcome6 (Some resp') false resp'.
Proof.
  unfold Handler6. rewrite !value_bind.
  change (Options reqmsg) with (options_of (IsMessage reqmsg)).
  rewrite deref_options by done.
  rewrite !FromIANA_reservations, !FromIATA_reservations, !FromIAPD_reservations.
  rewrite Handler6_block
    by (by rewrite <- FromIANA_reservations; unfold FromIANA; rewrite length_fmap).
  fold (reconcile_type OptionIANA (IsMessage reqmsg) (IsMessage respmsg)).
  rewrite deref_options by (by rewrite IsRelay_reconcile_type).
  rewrite !FromIATA_reservations.
  rewrite value_bind, Handler6_block
    by (by rewrite <- FromIATA_reservations; unfold FromIATA; rewrite length_fmap).
  fold (reconcile_type OptionIATA (IsMessage reqmsg)
          (reconcile_type OptionIANA (IsMessage reqmsg) (IsMessage respmsg))).
  cbv beta iota.
  rewrite deref_options by (by rewrite !IsRelay_reconcile_type).
  rewrite !FromIAPD_reservations.
  rewrite value_bind, Handler6_block
    by (by rewrite <- FromIAPD_reservations; unfold FromIAPD; rewrite length_fmap).
  cbv beta iota. rewrite value_bind. reflexivity.
Qed.

(** *** Every requested identifier is answered *)

Lemma reconcile_type_complete (code : OptionCode) (req d : DHCPv6) (r : IdentityAssociation) :
  r ∈ reservations code req → Id r ∈ identifiers code (reconcile_type code req d).
Proof.
  intros Hr. unfold identifiers, reconcile_type, denials.
  rewrite reservations_foldl_AddOption, fmap_app, elem_of_app.
  destruct (decide (Id r ∈ Id <$> reservations code d)) as [Hin|Hnin]; [by left|right].
  rewrite <- (denial_Id r). apply list_elem_of_fmap_2, list_elem_of_filter.
  split; [by rewrite denial_Code; apply reservations_Code in Hr|].
  apply list_elem_of_fmap_2. unfold unmatched. by apply list_elem_of_filter.
Qed.

Lemma reconcile_type_mono (code code' : OptionCode) (req d : DHCPv6) (x : IAID) :
  x ∈ identifiers code d → x ∈ identifiers code (reconcile_type code' req d).
Proof.
  unfold identifiers, reconcile_type.
  rewrite reservations_foldl_AddOption, fmap_app, elem_of_app. by left.
Qed.

(** After [Handler6] every reservation of the request has an entry with its
    identifier in the response's reservation set of its type. *)
Lemma Handler6_complete (state : PluginState) (reqmsg respmsg : Message)
    (r : IdentityAssociation) :
  r ∈ reservations (Code r) (IsMessage reqmsg) →
  Id r ∈ identifiers (Code r)
          (response (value (Handler6 state (IsMessage reqmsg) (IsMessage respmsg)))).
Proof.
  intros Hr. rewrite Handler6_messages. simpl. unfold reconcile_all.
  destruct r as [ia|ia|ia]; simpl Code in *.
  - by do 2 apply reconcile_type_mono; apply reconcile_type_complete.
  - by apply reconcile_type_mono, reconcile_type_complete.
  - by apply reconcile_type_complete.
Qed.

(** *** Identifiers stay unique *)

Lemma NoDup_fmap_filter {A B} (f : A → B) (P : A → Prop) `{∀ x, Decision (P x)}
    (l : list A) :
  NoDup (f <$> l) → NoDup (f <$> filter P l).
Proof.
  induction l as [|a l IH]; [done|].
  rewrite fmap_cons, NoDup_cons, filter_cons. intros [Ha Hl].
  case_decide; [|by auto].
  rewrite fmap_cons, NoDup_cons. split; [|by auto].
  intros (b & Hb & Hin)%list_elem_of_fmap. apply Ha.
  apply list_elem_of_filter in Hin as [_ Hin]. rewrite Hb. by apply list_elem_of_fmap_2.
Qed.

(** The markers appended by one block, seen from the reservation set of
    type [code]: all of them when the block is the one for [code], none of
    them otherwise. *)
Lemma filter_Code_denials (code code' : OptionCode) (l : list IdentityAssociation) :
  Forall (λ r, Code r = code') l →
  Id <$> filter (λ ia, Code ia = code) (denial <$> l) =
    if decide (code = code') then Id <$> l else [].
Proof.
  induction 1 as [|r l Hr _ IH]; [by case_decide|].
  rewrite fmap_cons, filter_cons, denial_Code, Hr.
  case_decide; subst.
  - rewrite decide_True in * by done. by rewrite !fmap_cons, denial_Id, IH.
  - rewrite decide_False in * by done. done.
Qed.

Lemma unmatched_Code (code : OptionCode) (req : DHCPv6)
    (response_ias : list IdentityAssociation) :
  Forall (λ r, Code r = code) (unmatched (reservations code req) response_ias).
Proof.
  apply Forall_forall. intros r [_ Hr]%list_elem_of_filter.
  by apply reservations_Code in Hr.
Qed.

Lemma identifiers_reconcile_type (code code' : OptionCode) (req d : DHCPv6) :
  identifiers code (reconcile_type code' req d) =
    identifiers code d ++
      (if decide (code = code')
       then Id <$> unmatched (reservations code' req) (reservations code' d)
       else []).
Proof.
  unfold identifiers, reconcile_type, denials.
  rewrite reservations_foldl_AddOption, fmap_app. f_equal.
  apply filter_Code_denials, unmatched_Code.
Qed.

Lemma reconcile_type_NoDup (code code' : OptionCode) (req d : DHCPv6) :
  NoDup (identifiers code req) →
  NoDup (identifiers code d) →
  NoDup (identifiers code (reconcile_type code' req d)).
Proof.
  intros Hreq Hd. rewrite identifiers_reconcile_type.
  case_decide as Hc; [subst code'|by rewrite app_nil_r].
  apply NoDup_app. split; [done|]. split.
  - intros x Hx (r & -> & Hr)%list_elem_of_fmap.
    by apply list_elem_of_filter in Hr as [Hr _].
  - by apply NoDup_fmap_filter.
Qed.

(** What one block appends: markers of the block's type, each for an
    identifier the response's reservation set of that type lacks. *)
Lemma reconcile_type_added (code : OptionCode) (req d : DHCPv6) :
  ∃ added : list IdentityAssociation,
    options_of (reconcile_type code req d) = options_of d ++ (ToOption <$> added)
    ∧ ∀ ia, ia ∈ added → Code ia = code ∧ Id ia ∉ identifiers code d.
Proof.
  exists (denials (reservations code req) (reservations code d)).
  unfold reconcile_type. rewrite options_of_foldl_AddOption. split; [done|].
  intros ia (r & -> & Hr)%list_elem_of_fmap.
  rewrite denial_Code, denial_Id.
  apply list_elem_of_filter in Hr as [Hid Hr].
  split; [by apply reservations_Code in Hr|done].
Qed.

(** C7: when the identifiers of the request and of the response are unique
    per reservation type, they still are in the response after [Handler6];
    what [Handler6] appended are markers for identifiers that the
    response's reservation set of the marker's type did not have. *)
Theorem Handler6_unique_identifiers (state : PluginState) (reqmsg respmsg : Message) :
  unique_per_type (IsMessage reqmsg) →
  unique_per_type (IsMessage respmsg) →
  let out := value (Handler6 state (IsMessage reqmsg) (IsMessage respmsg)) in
  unique_per_type (response out)
  ∧ returned out = Some (response out)
  ∧ ∃ added : list IdentityAssociation,
      options_of (response out) = Options respmsg ++ (ToOption <$> added)
      ∧ ∀ ia, ia ∈ added → Id ia ∉ identifiers (Code ia) (IsMessage respmsg).
Proof.
  intros Hreq Hresp. rewrite Handler6_messages. simpl. unfold reconcile_all.
  set (req := IsMessage reqmsg) in *. set (resp := IsMessage respmsg) in *.
  split; [|split; [done|]].
  - unfold unique_per_type in *. rewrite !Forall_cons in *.
    destruct Hreq as (Hq1 & Hq2 & Hq3 & _), Hresp as (Hr1 & Hr2 & Hr3 & _).
    repeat split; try done; by repeat apply reconcile_type_NoDup.
  - destruct (reconcile_type_added OptionIANA req resp) as (a1 & E1 & H1).
    destruct (reconcile_type_added OptionIATA req (reconcile_type OptionIANA req resp))
      as (a2 & E2 & H2).
    destruct (reconcile_type_added OptionIAPD req
                (reconcile_type OptionIATA req (reconcile_type OptionIANA req resp)))
      as (a3 & E3 & H3).
    exists (a1 ++ a2 ++ a3). split.
    + rewrite E3, E2, E1, !fmap_app, <- !app_assoc. done.
    + intros ia [Hia|[Hia|Hia]%elem_of_app]%elem_of_app.
      * by destruct (H1 ia Hia) as [-> ?].
      * destruct (H2 ia Hia) as [-> Hn]. intros Hin. apply Hn.
        by apply reconcile_type_mono.
      * destruct (H3 ia Hia) as [-> Hn]. intros Hin. apply Hn.
        by do 2 apply reconcile_type_mono.
Qed.

Lemma Handler6_unique_identifiers_witness :
  let out := value (Handler6 sample.state (IsMessage sample.request_abc)
                             (IsMessage sample.response_ab)) in
  unique_per_type (response out)
  ∧ returned out = Some (response out)
  ∧ ∃ added : list IdentityAssociation,
      options_of (response out) = Options sample.response_ab ++ (ToOption <$> added)
      ∧ ∀ ia, ia ∈ added → Id ia ∉ identifiers (Code ia) (IsMessage sample.response_ab).
Proof.
  apply (Handler6_unique_identifiers sample.state sample.request_abc sample.response_ab).
  - apply (bool_decide_unpack _). vm_compute. exact I.
  - apply (bool_decide_unpack _). vm_compute. exact I.
Defined.

(** C8: when the request or the response is not a client message,
    [Handler6] counts an error, returns nil and drop, and leaves the
    response object as it was: nothing is reconciled and no marker is
    added. *)
Theorem Handler6_shape_mismatch (state : PluginState) (req resp : DHCPv6) :
  IsRelay req = true ∨ IsRelay resp = true →
  value (Handler6 state req resp) = mkOutcome6 None true resp
  ∧ ∃ format args,
      trace (Handler6 state req resp) =
        [Inc "v6types" [Lit "error"]; Logged "error" format args].
Proof.
  intros H. destruct resp as [respmsg|f rm opts].
  - destruct req as [reqmsg|f rm opts]; [by destruct H|].
    split; [done|]. by eexists _, _.
  - split; [done|]. by eexists _, _.
Qed.

Lemma Handler6_shape_mismatch_witness :
  value (Handler6 sample.state (sample.relay_forward sample.request_abc)
                  (IsMessage sample.response_ab))
    = mkOutcome6 None true (IsMessage sample.response_ab)
  ∧ ∃ format args,
      trace (Handler6 sample.state (sample.relay_forward sample.request_abc)
                      (IsMessage sample.response_ab)) =
        [Inc "v6types" [Lit "error"]; Logged "error" format args].
Proof.
  apply (Handler6_shape_mismatch sample.state). left. reflexivity.
Defined.

(** ** Unwrapping relayed requests *)

Import unwrap.

(** The two unwrapping functions, defined by recursion on the message, are
    the loops of the library: each round takes one [DecapsulateRelay] step. *)
Lemma DecapsulateRelayLast_unroll (l : DHCPv6) :
  IsRelay l = true →
  DecapsulateRelayLast l =
    match DecapsulateRelay l with
    | Err e => Err e
    | Ok d => if negb (IsRelay d) then Ok l else DecapsulateRelayLast d
    end.
Proof. destruct l as [m|f [d|] opts]; by intros. Qed.

Lemma GetInnerMessage_unroll (p : DHCPv6) :
  IsRelay p = true →
  GetInnerMessage p =
    match DecapsulateRelay p with
    | Err e => Err e
    | Ok (IsMessage m) => Ok m
    | Ok d => GetInnerMessage d
    end.
Proof. destruct p as [m|f [[m|f' rm' opts']|] opts]; by intros. Qed.

Lemma DecapsulateRelayLast_encapsulate (e : RelayFields * list Option)
    (envelopes : list (RelayFields * list Option)) (m : Message) :
  ∃ f opts,
    DecapsulateRelayLast (encapsulate (e :: envelopes) (IsMessage m)) =
      Ok (IsRelayMessage f (Some (IsMessage m)) opts).
Proof.
  revert e. induction envelopes as [|e' l IH]; intros [f opts].
  - by exists f, opts.
  - destruct (IH e') as (f' & opts' & Heq). exists f', opts'.
    rewrite <- Heq. by destruct e'.
Qed.

Lemma GetInnerMessage_encapsulate (envelopes : list (RelayFields * list Option))
    (inner : DHCPv6) :
  GetInnerMessage (encapsulate envelopes inner) = GetInnerMessage inner.
Proof. induction envelopes as [|[f opts] l IH]; [done|]. by simpl. Qed.

Lemma DecapsulateRelayTimes_encapsulate (envelopes : list (RelayFields * list Option))
    (inner : DHCPv6) :
  DecapsulateRelayTimes (length envelopes) (encapsulate envelopes inner) = Ok inner.
Proof. induction envelopes as [|[f opts] l IH]; [done|]. by simpl. Qed.

Lemma DecapsulateRelayTimes_partial (envelopes : list (RelayFields * list Option))
    (inner : DHCPv6) (k : nat) :
  (k < length envelopes)%nat →
  ∃ d, DecapsulateRelayTimes k (encapsulate envelopes inner) = Ok d ∧ IsRelay d = true.
Proof.
  revert k. induction envelopes as [|[f opts] l IH]; intros k Hk; [simpl in Hk; lia|].
  destruct k as [|k]; [by eexists|].
  simpl. apply IH. simpl in Hk. lia.
Qed.

Lemma depth_encapsulate (envelopes : list (RelayFields * list Option)) (m : Message) :
  depth (encapsulate envelopes (IsMessage m)) = length envelopes.
Proof. induction envelopes as [|[f opts] l IH]; [done|]. simpl. by rewrite IH. Qed.

Lemma IsRelay_encapsulate (envelopes : list (RelayFields * list Option)) (inner : DHCPv6) :
  IsRelay inner = true → IsRelay (encapsulate envelopes inner) = true.
Proof. by destruct envelopes as [|[f opts] l]. Qed.

Lemma DecapsulateRelayLast_malformed (envelopes : list (RelayFields * list Option))
    (f : RelayFields) (opts : list Option) :
  DecapsulateRelayLast (encapsulate envelopes (IsRelayMessage f None opts)) =
    Err "malformed Relay message: no OptRelayMsg found".
Proof.
  induction envelopes as [|[f0 opts0] l IH]; [done|].
  simpl. by rewrite IsRelay_encapsulate.
Qed.

Lemma Handler6_malformed (envelopes : list (RelayFields * list Option))
    (f : RelayFields) (opts : list Option) (resp : DHCPv6) :
  requeststats.Handler6 (encapsulate envelopes (IsRelayMessage f None opts)) resp =
    ((None, true),
     [Inc "v6relay" []; Inc "v6types" [Lit "error"];
      Logged "error" "could not decapsulate: %v"
        [ArgError "malformed Relay message: no OptRelayMsg found"]]).
Proof.
  unfold requeststats.Handler6, requeststats.count_request, DecapsulateRelayIndex.
  rewrite IsRelay_encapsulate by done. simpl.
  by rewrite DecapsulateRelayLast_malformed.
Qed.

Lemma count_request_innermost (req resp : DHCPv6) (f : RelayFields) (opts : list Option)
    (m : Message) :
  DecapsulateRelayIndex req (-1) = Ok (IsRelayMessage f (Some (IsMessage m)) opts) →
  requeststats.count_request req resp =
    ((Some resp, false), Inc "v6types" [TypeString (MessageType_ m)] :: requested_ias m).
Proof.
  intros H. unfold requeststats.count_request, requested_ias. rewrite H. simpl.
  by repeat destruct (0 <? _).
Qed.

(** C4 (as the code has it): the library returns a client message that has
    no relay envelope unchanged and without error, and the request-side
    [Handler6] then rejects it, because it is not a relay message: it counts
    an error and returns nil and drop. *)
Theorem Handler6_plain_message_dropped (m : Message) (resp : DHCPv6) :
  DecapsulateRelayIndex (IsMessage m) (-1) = Ok (IsMessage m)
  ∧ GetInnerMessage (IsMessage m) = Ok m
  ∧ requeststats.Handler6 (IsMessage m) resp =
      ((None, true),
       [Inc "v6types" [Lit "error"];
        Logged "error" "relay message format bug: %v" [ArgDHCPv6 (IsMessage m)]]).
Proof. done. Qed.

(** C5 (as stated) fails: were there a maximum depth, a request nested
    deeper would be dropped; with maximum 0, a request inside one envelope
    is not. *)
Lemma no_depth_bound :
  ¬ (∀ (maxDepth : Z) (req resp : DHCPv6),
       0 ≤ maxDepth →
       maxDepth < Z.of_nat (depth req) →
       (value (requeststats.Handler6 req resp)).2 = true).
Proof.
  intros H.
  assert (Hdrop := H 0 (sample.relay_forward sample.request_abc)
                     (IsMessage sample.response_ab) ltac:(lia) ltac:(simpl; lia)).
  vm_compute in Hdrop. discriminate Hdrop.
Qed.

(** C5 (amended): a chain of N >= 1 envelopes around a client message
    unwraps in exactly N steps to that message, whatever N is; the
    request-side [Handler6] counts the request by the type of the innermost
    message and lets the response pass.  A chain whose innermost envelope
    holds no message is counted as an error and dropped. *)
Theorem unwrap_any_depth (envelopes : list (RelayFields * list Option))
    (m : Message) (resp : DHCPv6) :
  envelopes ≠ [] →
  let req := encapsulate envelopes (IsMessage m) in
  depth req = length envelopes
  ∧ DecapsulateRelayTimes (length envelopes) req = Ok (IsMessage m)
  ∧ (∀ k, (k < length envelopes)%nat →
       ∃ d, DecapsulateRelayTimes k req = Ok d ∧ IsRelay d = true)
  ∧ GetInnerMessage req = Ok m
  ∧ requeststats.Handler6 req resp =
      ((Some resp, false),
       Inc "v6relay" [] :: Inc "v6types" [TypeString (MessageType_ m)] :: requested_ias m)
  ∧ ∀ f opts,
      let bad := encapsulate envelopes (IsRelayMessage f None opts) in
      value (requeststats.Handler6 bad resp) = (None, true)
      ∧ Inc "v6types" [Lit "error"] ∈ trace (requeststats.Handler6 bad resp).
Proof.
  intros Hne. destruct envelopes as [|e l]; [done|]. clear Hne.
  repeat split.
  - apply depth_encapsulate.
  - apply DecapsulateRelayTimes_encapsulate.
  - intros k Hk. by apply DecapsulateRelayTimes_partial.
  - by rewrite GetInnerMessage_encapsulate.
  - destruct (DecapsulateRelayLast_encapsulate e l m) as (f & opts & Hlast).
    destruct e as [f0 opts0].
    unfold requeststats.Handler6.
    change (IsRelay (encapsulate ((f0, opts0) :: l) (IsMessage m))) with true. cbv iota.
    erewrite count_request_innermost; [reflexivity|exact Hlast].
  - by rewrite Handler6_malformed.
  - rewrite Handler6_malformed. unfold trace. simpl. by right; left.
Qed.

Lemma unwrap_any_depth_witness :
  let req := encapsulate [(sample.relay1, []); (sample.relay1, [])]
                         (IsMessage sample.request_abc) in
  depth req = 2%nat
  ∧ DecapsulateRelayTimes 2 req = Ok (IsMessage sample.request_abc)
  ∧ requeststats.Handler6 req (IsMessage sample.response_ab) =
      ((Some (IsMessage sample.response_ab), false),
       [Inc "v6relay" []; Inc "v6types" [TypeString sample.MessageTypeSolicit];
        AddBy "v6ia" [Lit "IA_NA"] 3]).
Proof.
  destruct (unwrap_any_depth [(sample.relay1, []); (sample.relay1, [])]
              sample.request_abc (IsMessage sample.response_ab))
    as (Hdepth & Hsteps & _ & _ & Hhandler & _); [done|].
  split; [exact Hdepth|]. split; [exact Hsteps|]. exact Hhandler.
Defined.

(** ** The DHCPv4 handlers *)

Lemma length_zero_empty (s : string) : String.length s = 0%nat ↔ s = EmptyString.
Proof. by destruct s. Qed.

(** C10: the response-side [Handler4] returns the response it was given
    and never asks for a drop, whatever the request and the response are. *)
Theorem Handler4_frame (state : PluginState) (req resp : dhcpv4.DHCPv4) :
  value (responsestats.Handler4 state req resp) = (resp, false).
Proof.
  unfold responsestats.Handler4.
  destruct (negb _); [done|].
  rewrite !value_bind.
  destruct (dhcpv4.RelayAgentInfo_ req); by rewrite !value_bind.
Qed.

(** The label and the missing agent id as the two handlers compute them
    from a Relay Agent Information option, and where each handler uses
    them. *)
Theorem interface_label_fallback (rai : dhcpv4.Options) :
  let circuit := dhcpv4.GetString dhcpv4.AgentCircuitIDSubOption rai in
  let remote := dhcpv4.GetString dhcpv4.AgentRemoteIDSubOption rai in
  intfstr_of rai =
    (if bool_decide (circuit ≠ EmptyString) then circuit
     else if bool_decide (remote ≠ EmptyString) then remote
     else "<unspecified>")
  ∧ (Inc "v4raimissingsuboptions" [Lit "AgentIDSubOption"]
       ∈ trace (requeststats.missing_suboptions rai)
     ↔ circuit = EmptyString ∧ remote = EmptyString)
  ∧ ∀ (state : PluginState) (req resp : dhcpv4.DHCPv4),
      dhcpv4.OpCode req = dhcpv4.OpcodeBootRequest →
      dhcpv4.RelayAgentInfo_ req = Some rai →
      (∃ peer link mac addr,
         Logged (Logger state) "[relay=%s link=%s intf=%s] MAC %s allocated %s"
                [peer; link; ArgString (intfstr_of rai); mac; addr]
           ∈ trace (responsestats.Handler4 state req resp))
      ∧ (bool_decide (length (dhcpv4.GatewayIPAddr req) = 0%nat)
         || dhcpv4.IsUnspecified (dhcpv4.GatewayIPAddr req) = false →
         trace (requeststats.Handler4 req resp) =
           [Inc "v4types" [TypeString (dhcpv4.MessageType_ req)]; Inc "v4relay" []]
           ++ trace (requeststats.missing_suboptions rai)).
Proof.
  intros circuit remote. split; [|split].
  - unfold intfstr_of. fold circuit remote.
    repeat case_bool_decide; try done;
      repeat match goal with H : String.length _ = 0%nat |- _ =>
                               apply length_zero_empty in H end;
      repeat match goal with H : String.length _ ≠ 0%nat |- _ =>
                               rewrite length_zero_empty in H end;
      congruence.
  - unfold requeststats.missing_suboptions. fold circuit remote.
    rewrite trace_bind, elem_of_app. unfold when, trace, emit.
    rewrite <- !length_zero_empty.
    repeat case_bool_decide; simpl;
      rewrite ?elem_of_cons, ?elem_of_nil; intuition (try congruence; try discriminate).
  - intros state req resp Hop Hrai. split.
    + unfold responsestats.Handler4. rewrite Hop, Hrai. simpl.
      do 4 eexists. rewrite trace_bind, elem_of_app. right.
      unfold trace. simpl. do 2 right. left.
    + intros Hgi. unfold requeststats.Handler4. rewrite Hop, Hrai, Hgi.
      change (negb (dhcpv4.OpcodeBootRequest =? dhcpv4.OpcodeBootRequest)) with false.
      cbv iota. rewrite !trace_bind. unfold trace at 1 2 4. simpl.
      by rewrite app_nil_r.
Qed.

(** An empty circuit id and remote id eth0. *)
Lemma interface_label_fallback_witness :
  intfstr_of sample.rai_eth0 = "eth0"
  ∧ (Inc "v4raimissingsuboptions" [Lit "AgentIDSubOption"]
       ∉ trace (requeststats.missing_suboptions sample.rai_eth0))
  ∧ trace (requeststats.Handler4 (sample.relayed4 sample.rai_eth0) sample.offer4) =
      [Inc "v4types" [TypeString 1]; Inc "v4relay" [];
       Inc "v4raimissingsuboptions" [Lit "LinkSelectionSubOption"]].
Proof.
  destruct (interface_label_fallback sample.rai_eth0) as (Hlabel & Hmissing & Hhandlers).
  split; [|split].
  - rewrite Hlabel. vm_compute. reflexivity.
  - rewrite Hmissing. intros [_ Hremote]. vm_compute in Hremote. discriminate Hremote.
  - destruct (Hhandlers sample.state (sample.relayed4 sample.rai_eth0) sample.offer4)
      as [_ Htrace]; [reflexivity|reflexivity|].
    rewrite Htrace by (vm_compute; reflexivity). vm_compute. reflexivity.
Defined.

(** Both empty: the label is the placeholder and the agent id is reported
    missing. *)
Example interface_label_both_empty :
  intfstr_of ∅ = "<unspecified>"
  ∧ trace (requeststats.missing_suboptions ∅) =
      [Inc "v4raimissingsuboptions" [Lit "LinkSelectionSubOption"];
       Inc "v4raimissingsuboptions" [Lit "AgentIDSubOption"]].
Proof. split; vm_compute; reflexivity. Qed.


(** * Further properties of the handlers *)

Import observe.

(** ** More on [ia_fixup] *)

Lemma is_satisfied_matched (response_ias : list IdentityAssociation) (r : IdentityAssociation) :
  is_satisfied response_ias r = true → Id r ∈ Id <$> response_ias.
Proof.
  unfold is_satisfied. destruct (first_match _ _) as [x|] eqn:Hm; [|done].
  intros _. apply first_match_Some in Hm as [? <-]. by apply list_elem_of_fmap_2.
Qed.

Lemma count_unsatisfied_zero (request_ias response_ias : list IdentityAssociation) :
  count_unsatisfied request_ias response_ias = 0%nat
  ↔ Forall (λ r, is_satisfied response_ias r = true) request_ias.
Proof.
  unfold count_unsatisfied. induction request_ias as [|r l IH].
  - split; [by constructor|done].
  - rewrite filter_cons, Forall_cons. destruct (is_satisfied response_ias r) eqn:Hs.
    + rewrite decide_False by (simpl; tauto). rewrite IH. tauto.
    + rewrite decide_True by (simpl; tauto). simpl. split; [lia|]. by intros [? _].
Qed.

Lemma count_satisfied_zero (request_ias response_ias : list IdentityAssociation) :
  count_satisfied request_ias response_ias = 0%nat
  ↔ Forall (λ r, is_satisfied response_ias r = false) request_ias.
Proof.
  unfold count_satisfied. induction request_ias as [|r l IH].
  - split; [by constructor|done].
  - rewrite filter_cons, Forall_cons. destruct (is_satisfied response_ias r) eqn:Hs.
    + rewrite decide_True by (simpl; tauto). simpl. split; [lia|]. by intros [? _].
    + rewrite decide_False by (simpl; tauto). rewrite IH. tauto.
Qed.

Lemma count_satisfied_pos (request_ias response_ias : list IdentityAssociation) :
  Exists (λ r, is_satisfied response_ias r = true) request_ias
  ↔ count_satisfied request_ias response_ias ≠ 0%nat.
Proof.
  unfold count_satisfied. induction request_ias as [|r l IH].
  - split; [by intros ?%Exists_nil|done].
  - rewrite filter_cons, Exists_cons. destruct (is_satisfied response_ias r) eqn:Hs.
    + rewrite decide_True by (simpl; tauto). simpl. split; [lia|by left].
    + rewrite decide_False by (simpl; tauto). rewrite IH. split; [by intros [?|?]|tauto].
Qed.

Lemma count_unsatisfied_pos (request_ias response_ias : list IdentityAssociation) :
  Exists (λ r, is_satisfied response_ias r = false) request_ias
  ↔ count_unsatisfied request_ias response_ias ≠ 0%nat.
Proof.
  unfold count_unsatisfied. induction request_ias as [|r l IH].
  - split; [by intros ?%Exists_nil|done].
  - rewrite filter_cons, Exists_cons. destruct (is_satisfied response_ias r) eqn:Hs.
    + rewrite decide_False by (simpl; tauto). rewrite IH. split; [by intros [?|?]|tauto].
    + rewrite decide_True by (simpl; tauto). simpl. split; [lia|by left].
Qed.

Lemma unmatched_nil (request_ias response_ias : list IdentityAssociation) :
  unmatched request_ias response_ias = []
  ↔ Forall (λ r, Id r ∈ Id <$> response_ias) request_ias.
Proof.
  unfold unmatched. induction request_ias as [|r l IH].
  - split; [by constructor|done].
  - rewrite Forall_cons. destruct (decide (Id r ∈ Id <$> response_ias)) as [Hr|Hr].
    + rewrite filter_cons_False by tauto. rewrite IH. tauto.
    + rewrite filter_cons_True by done. split; [done|]. by intros [? _].
Qed.

Lemma unmatched_length (request_ias response_ias : list IdentityAssociation) :
  (length (unmatched request_ias response_ias) ≤ length request_ias)%nat.
Proof. apply length_filter. Qed.

(** X1: [ia_fixup] answers all exactly when every request reservation is
    satisfied, which includes the empty request; it then appends nothing. *)
Theorem ia_fixup_all_iff (resp : DHCPv6) (request_ias response_ias : list IdentityAssociation) :
  ((ia_fixup resp request_ias response_ias).1.1 = "all"
   ↔ Forall (λ r, is_satisfied response_ias r = true) request_ias)
  ∧ ((ia_fixup resp request_ias response_ias).1.1 = "all" →
     ia_fixup resp request_ias response_ias = ("all", 0, resp)).
Proof.
  rewrite ia_fixup_eq. unfold quantifier_of. simpl.
  rewrite <- count_unsatisfied_zero.
  assert (Hall : count_unsatisfied request_ias response_ias = 0%nat →
                 unmatched request_ias response_ias = []).
  { rewrite count_unsatisfied_zero, unmatched_nil. intros H.
    eapply Forall_impl; [exact H|]. intros r. apply is_satisfied_matched. }
  destruct (Z.eqb_spec (Z.of_nat (count_unsatisfied request_ias response_ias)) 0) as [Hu|Hu].
  - split; [split; [lia|done]|]. intros _.
    unfold denials. rewrite Hall by lia. done.
  - assert (Hne : count_unsatisfied request_ias response_ias ≠ 0%nat) by lia.
    destruct (Z.of_nat (count_satisfied request_ias response_ias) =? 0);
      (split; [split; [done|by intros]|done]).
Qed.

(** All three requested, all three allocated: every request reservation is
    satisfied, so the answer is all and the response is left alone. *)
Lemma ia_fixup_all_iff_witness :
  ia_fixup (IsMessage (sample.advertise (sample.allocated <$> [sample.idA; sample.idB; sample.idC])))
           (FromIANA (IANA (Options sample.request_abc)))
           (FromIANA (sample.allocated <$> [sample.idA; sample.idB; sample.idC]))
  = ("all", 0,
     IsMessage (sample.advertise (sample.allocated <$> [sample.idA; sample.idB; sample.idC]))).
Proof.
  destruct (ia_fixup_all_iff
              (IsMessage (sample.advertise
                 (sample.allocated <$> [sample.idA; sample.idB; sample.idC])))
              (FromIANA (IANA (Options sample.request_abc)))
              (FromIANA (sample.allocated <$> [sample.idA; sample.idB; sample.idC])))
    as [Hiff Hsame].
  apply Hsame, Hiff. apply (bool_decide_unpack _). vm_compute. exact I.
Defined.

(** X2: [ia_fixup] answers none exactly when there is a request
    reservation and none is satisfied, and some exactly when one is
    satisfied and another is not. *)
Theorem ia_fixup_none_some_iff (resp : DHCPv6)
    (request_ias response_ias : list IdentityAssociation) :
  ((ia_fixup resp request_ias response_ias).1.1 = "none"
   ↔ request_ias ≠ [] ∧ Forall (λ r, is_satisfied response_ias r = false) request_ias)
  ∧ ((ia_fixup resp request_ias response_ias).1.1 = "some"
     ↔ Exists (λ r, is_satisfied response_ias r = true) request_ias
       ∧ Exists (λ r, is_satisfied response_ias r = false) request_ias).
Proof.
  rewrite ia_fixup_eq. unfold quantifier_of. simpl.
  pose proof (count_unsatisfied_zero request_ias response_ias) as Hu.
  pose proof (count_satisfied_zero request_ias response_ias) as Hs.
  pose proof (count_total request_ias response_ias) as Htot.
  pose proof (count_satisfied_pos request_ias response_ias) as Hex1.
  pose proof (count_unsatisfied_pos request_ias response_ias) as Hex2.
  rewrite Hex1, Hex2, <- Hs.
  assert (Hnil : request_ias ≠ [] ↔ length request_ias ≠ 0%nat)
    by (destruct request_ias; simpl; split; (done || lia)).
  rewrite Hnil.
  destruct (Z.eqb_spec (Z.of_nat (count_unsatisfied request_ias response_ias)) 0);
    destruct (Z.eqb_spec (Z.of_nat (count_satisfied request_ias response_ias)) 0);
    (split; split; try done; try lia; try (intros [? ?]; lia)).
Qed.

Lemma foldl_AddOption_nil_inv (d : DHCPv6) (os : list Option) :
  foldl AddOption d os = d → os = [].
Proof.
  intros H. apply (f_equal options_of) in H.
  rewrite options_of_foldl_AddOption in H.
  apply (f_equal length) in H. rewrite length_app in H.
  destruct os; [done|simpl in H; lia].
Qed.

(** X3: the number of status codes [ia_fixup] adds lies between 0 and the
    number of request reservations; it is 0 exactly when every request
    identifier occurs in the response sequence, and exactly then the
    response object is left as it was. *)
Theorem ia_fixup_adds_nothing_iff (resp : DHCPv6)
    (request_ias response_ias : list IdentityAssociation) :
  0 ≤ (ia_fixup resp request_ias response_ias).1.2 ≤ Z.of_nat (length request_ias)
  ∧ ((ia_fixup resp request_ias response_ias).1.2 = 0
     ↔ Forall (λ r, Id r ∈ Id <$> response_ias) request_ias)
  ∧ ((ia_fixup resp request_ias response_ias).2 = resp
     ↔ Forall (λ r, Id r ∈ Id <$> response_ias) request_ias).
Proof.
  rewrite ia_fixup_eq. simpl. rewrite <- unmatched_nil.
  pose proof (unmatched_length request_ias response_ias).
  split; [lia|]. split.
  - destruct (unmatched request_ias response_ias); simpl; split; (done || lia).
  - unfold denials. split.
    + intros Hd%foldl_AddOption_nil_inv.
      by destruct (unmatched request_ias response_ias).
    + by intros ->.
Qed.

Lemma unmatched_app (l1 l2 response_ias : list IdentityAssociation) :
  unmatched (l1 ++ l2) response_ias = unmatched l1 response_ias ++ unmatched l2 response_ias.
Proof. apply filter_app. Qed.

Lemma unmatched_cons_True (r : IdentityAssociation) (l response_ias : list IdentityAssociation) :
  Id r ∉ Id <$> response_ias →
  unmatched (r :: l) response_ias = r :: unmatched l response_ias.
Proof. intros. by apply filter_cons_True. Qed.

Lemma marker_ids_app (code : OptionCode) (l1 l2 : list IdentityAssociation) :
  Id <$> filter (λ ia, Code ia = code) (denial <$> l1 ++ l2) =
    (Id <$> filter (λ ia, Code ia = code) (denial <$> l1))
    ++ (Id <$> filter (λ ia, Code ia = code) (denial <$> l2)).
Proof. by rewrite fmap_app, filter_app, fmap_app. Qed.

Lemma marker_ids_cons (code : OptionCode) (r : IdentityAssociation)
    (l : list IdentityAssociation) :
  Code r = code →
  Id <$> filter (λ ia, Code ia = code) (denial <$> r :: l) =
    Id r :: (Id <$> filter (λ ia, Code ia = code) (denial <$> l)).
Proof.
  intros Hc. rewrite fmap_cons, filter_cons_True by (by rewrite denial_Code).
  by rewrite fmap_cons, denial_Id.
Qed.

(** X4: an identifier that the request names twice and the response lacks
    gets two markers: the response sequence is read before the loop and not
    again, so the response then holds that identifier twice. *)
Theorem ia_fixup_duplicate_request (code : OptionCode) (resp : DHCPv6)
    (r r' : IdentityAssociation) (l1 l2 l3 : list IdentityAssociation) :
  Code r = code → Code r' = code → Id r' = Id r →
  Id r ∉ identifiers code resp →
  ¬ NoDup (identifiers code
             (ia_fixup resp (l1 ++ r :: l2 ++ r' :: l3) (reservations code resp)).2).
Proof.
  intros Hc Hc' Hid Hnew. rewrite ia_fixup_eq. simpl.
  unfold identifiers at 1. rewrite reservations_foldl_AddOption.
  unfold denials.
  rewrite unmatched_app, unmatched_cons_True by done.
  rewrite unmatched_app, unmatched_cons_True by (by rewrite Hid).
  rewrite fmap_app, marker_ids_app, marker_ids_cons, marker_ids_app, marker_ids_cons by done.
  rewrite Hid.
  intros Hnd. apply NoDup_app in Hnd as (_ & _ & Hnd).
  apply NoDup_app in Hnd as (_ & _ & Hnd).
  apply NoDup_cons in Hnd as [Hnotin _]. apply Hnotin.
  apply elem_of_app. right. by left.
Qed.

Lemma ia_fixup_duplicate_request_witness :
  ¬ NoDup (identifiers OptionIANA
             (ia_fixup (IsMessage sample.response_ab)
                ([] ++ AsIANA (sample.requested sample.idC)
                    :: [AsIANA (sample.requested sample.idA)]
                    ++ AsIANA (sample.requested sample.idC) :: [])
                (reservations OptionIANA (IsMessage sample.response_ab))).2).
Proof.
  apply (ia_fixup_duplicate_request OptionIANA (IsMessage sample.response_ab)
           (AsIANA (sample.requested sample.idC)) (AsIANA (sample.requested sample.idC))
           [] [AsIANA (sample.requested sample.idA)] []).
  - reflexivity.
  - reflexivity.
  - reflexivity.
  - apply (bool_decide_unpack _). vm_compute. exact I.
Defined.

Lemma Addresses_status (o : list IAOption) (c : StatusCode) (msg : string) :
  Addresses (Options_Add o (OptStatusCode c msg)) = Addresses o.
Proof.
  unfold Addresses, Options_Add. rewrite List.filter_app. simpl. by rewrite app_nil_r.
Qed.

Lemma Prefixes_status (o : list IAOption) (c : StatusCode) (msg : string) :
  Prefixes (Options_Add o (OptStatusCode c msg)) = Prefixes o.
Proof.
  unfold Prefixes, Options_Add. rewrite List.filter_app. simpl. by rewrite app_nil_r.
Qed.

(** X5: attaching the unavailable status to an identity association of any
    kind keeps its identifier, its option code and whether it is allocated:
    a status code is neither an address nor a prefix.  A new identity
    association has the identifier it was made with and the kind of the one
    it was made from, and is not allocated. *)
Theorem AddStatusUnavailable_keeps (ia : IdentityAssociation) (iaid : IAID) :
  Id (AddStatusUnavailable ia) = Id ia
  ∧ Code (AddStatusUnavailable ia) = Code ia
  ∧ Allocated (AddStatusUnavailable ia) = Allocated ia
  ∧ Id (New ia iaid) = iaid
  ∧ Code (New ia iaid) = Code ia
  ∧ Allocated (New ia iaid) = false.
Proof.
  destruct ia as [ia|ia|ia]; repeat split; try done; simpl;
    unfold OneAddress; by rewrite ?Addresses_status, ?Prefixes_status.
Qed.

(** ** More on the response-side [Handler6] *)

Lemma foldl_AddOption_message (os : list Option) (m : Message) :
  foldl AddOption (IsMessage m) os =
    IsMessage (mkMessage (MessageType_ m) (TransactionID m) (Options m ++ os)).
Proof.
  revert m. induction os as [|o os IH]; intros m.
  - destruct m. simpl. by rewrite app_nil_r.
  - simpl. rewrite IH. simpl. unfold Options_Add. by rewrite <- app_assoc.
Qed.

Lemma reconcile_type_message (code : OptionCode) (req : DHCPv6) (m : Message) :
  ∃ added : list IdentityAssociation,
    reconcile_type code req (IsMessage m) =
      IsMessage (mkMessage (MessageType_ m) (TransactionID m)
                           (Options m ++ (ToOption <$> added)))
    ∧ Forall (λ ia, ∃ r, r ∈ omap as_reservation (options_of req) ∧ ia = denial r) added.
Proof.
  exists (denials (reservations code req) (reservations code (IsMessage m))).
  split; [apply foldl_AddOption_message|].
  apply Forall_forall. intros ia (r & -> & Hr)%list_elem_of_fmap.
  exists r. split; [|done].
  apply list_elem_of_filter in Hr as [_ Hr]. unfold reservations in Hr.
  by apply list_elem_of_filter in Hr as [_ Hr].
Qed.

Lemma reconcile_all_message (req : DHCPv6) (m : Message) :
  ∃ added : list IdentityAssociation,
    reconcile_all req (IsMessage m) =
      IsMessage (mkMessage (MessageType_ m) (TransactionID m)
                           (Options m ++ (ToOption <$> added)))
    ∧ Forall (λ ia, ∃ r, r ∈ omap as_reservation (options_of req) ∧ ia = denial r) added.
Proof.
  unfold reconcile_all.
  destruct (reconcile_type_message OptionIANA req m) as (a1 & E1 & F1). rewrite E1.
  destruct (reconcile_type_message OptionIATA req
              (mkMessage (MessageType_ m) (TransactionID m) (Options m ++ (ToOption <$> a1))))
    as (a2 & E2 & F2).
  rewrite E2. cbn [MessageType_ TransactionID Options].
  destruct (reconcile_type_message OptionIAPD req
              (mkMessage (MessageType_ m) (TransactionID m)
                         ((Options m ++ (ToOption <$> a1)) ++ (ToOption <$> a2))))
    as (a3 & E3 & F3).
  rewrite E3. cbn [MessageType_ TransactionID Options].
  exists (a1 ++ a2 ++ a3). split.
  - by rewrite !fmap_app, <- !app_assoc.
  - by rewrite !Forall_app.
Qed.

(** X7: on two client messages [Handler6] never drops and returns the
    response object it was given; that object keeps its message type, its
    transaction id and all its options, in order, and gains only markers for
    reservations of the request. *)
Theorem Handler6_frame (state : PluginState) (reqmsg respmsg : Message) :
  let out := value (Handler6 state (IsMessage reqmsg) (IsMessage respmsg)) in
  drop out = false
  ∧ returned out = Some (response out)
  ∧ ∃ added : list IdentityAssociation,
      response out =
        IsMessage (mkMessage (MessageType_ respmsg) (TransactionID respmsg)
                             (Options respmsg ++ (ToOption <$> added)))
      ∧ Forall (λ ia, ∃ r, r ∈ omap as_reservation (Options reqmsg) ∧ ia = denial r) added.
Proof.
  rewrite Handler6_messages. simpl. split; [done|]. split; [done|].
  apply (reconcile_all_message (IsMessage reqmsg) respmsg).
Qed.

Lemma ia_fixup_quantifier_resp (d d' : DHCPv6) (request_ias response_ias : list IdentityAssociation) :
  (ia_fixup d request_ias response_ias).1.1 = (ia_fixup d' request_ias response_ias).1.1.
Proof. by rewrite !ia_fixup_eq. Qed.

Lemma filter_Code_denials_other (code code' : OptionCode) (l : list IdentityAssociation) :
  code ≠ code' →
  Forall (λ r, Code r = code') l →
  filter (λ ia, Code ia = code) (denial <$> l) = [].
Proof.
  intros Hne. induction 1 as [|r l Hr _ IH]; [done|].
  rewrite fmap_cons, filter_cons_False; [done|]. rewrite denial_Code. congruence.
Qed.

(** The block for one reservation type leaves the reservation sets of the
    other types as they were. *)
Lemma reservations_reconcile_type_other (code code' : OptionCode) (req d : DHCPv6) :
  code ≠ code' →
  reservations code (reconcile_type code' req d) = reservations code d.
Proof.
  intros Hne. unfold reconcile_type, denials.
  rewrite reservations_foldl_AddOption.
  rewrite (filter_Code_denials_other code code'); [by rewrite app_nil_r|done|].
  apply unmatched_Code.
Qed.

Lemma gained_reconcile_type (code : OptionCode) (req d : DHCPv6) :
  Z.of_nat (length (options_of (reconcile_type code req d))) =
    Z.of_nat (length (options_of d))
    + Z.of_nat (length (unmatched (reservations code req) (reservations code d))).
Proof.
  unfold reconcile_type, denials.
  rewrite options_of_foldl_AddOption, length_app, !length_fmap. lia.
Qed.

Lemma Handler6_block_trace (label : string) (all_adds : Z) (resp : DHCPv6)
    (request_ias response_ias : list IdentityAssociation) (n : nat) :
  n = length request_ias →
  trace (if bool_decide (0 < n)%nat then
           let '(quantifier, adds, resp') := ia_fixup resp request_ias response_ias in
           emit (Inc "v6processed" [Lit label; Lit quantifier]);;
           mret (resp', all_adds + adds)
         else mret (resp, all_adds))
  = if bool_decide (request_ias = []) then []
    else [Inc "v6processed" [Lit label; Lit (ia_fixup resp request_ias response_ias).1.1]].
Proof.
  intros ->. destruct request_ias as [|r l].
  - done.
  - rewrite bool_decide_eq_true_2 by (simpl; lia).
    rewrite bool_decide_eq_false_2 by done.
    by destruct (ia_fixup resp (r :: l) response_ias) as [[q adds] resp'].
Qed.

Lemma Handler6_trace (state : PluginState) (reqmsg respmsg : Message) :
  let req := IsMessage reqmsg in
  let resp := IsMessage respmsg in
  let n := gained resp (reconcile_all req resp) in
  trace (Handler6 state req resp) =
    Inc "v6types" [TypeString (MessageType_ respmsg)]
    :: processed "IA_NA" OptionIANA req resp
    ++ processed "IA_TA" OptionIATA req resp
    ++ processed "IA_PD" OptionIAPD req resp
    ++ [if 0 <? n then
          Logged (Logger state) "[added %d statuscodes] %s"
                 [ArgInt n; ArgDHCPv6 (reconcile_all req resp)]
        else Logged (Logger state) "%s" [ArgDHCPv6 (reconcile_all req resp)]].
Proof.
  intros req resp n. subst req resp n. unfold Handler6.
  rewrite !trace_bind.
  change (Options reqmsg) with (options_of (IsMessage reqmsg)).
  rewrite deref_options by done.
  rewrite !FromIANA_reservations, !FromIATA_reservations, !FromIAPD_reservations.
  rewrite Handler6_block_trace
    by (by rewrite <- FromIANA_reservations; unfold FromIANA; rewrite length_fmap).
  rewrite Handler6_block
    by (by rewrite <- FromIANA_reservations; unfold FromIANA; rewrite length_fmap).
  fold (reconcile_type OptionIANA (IsMessage reqmsg) (IsMessage respmsg)).
  set (d1 := reconcile_type OptionIANA (IsMessage reqmsg) (IsMessage respmsg)).
  assert (Hd1 : IsRelay d1 = false) by (by unfold d1; rewrite IsRelay_reconcile_type).
  cbv beta iota. rewrite trace_bind.
  rewrite deref_options by done. rewrite !FromIATA_reservations.
  rewrite Handler6_block_trace
    by (by rewrite <- FromIATA_reservations; unfold FromIATA; rewrite length_fmap).
  rewrite Handler6_block
    by (by rewrite <- FromIATA_reservations; unfold FromIATA; rewrite length_fmap).
  fold (reconcile_type OptionIATA (IsMessage reqmsg) d1).
  set (d2 := reconcile_type OptionIATA (IsMessage reqmsg) d1).
  assert (Hd2 : IsRelay d2 = false) by (by unfold d2; rewrite IsRelay_reconcile_type).
  cbv beta iota. rewrite trace_bind.
  rewrite deref_options by done. rewrite !FromIAPD_reservations.
  rewrite Handler6_block_trace
    by (by rewrite <- FromIAPD_reservations; unfold FromIAPD; rewrite length_fmap).
  rewrite Handler6_block
    by (by rewrite <- FromIAPD_reservations; unfold FromIAPD; rewrite length_fmap).
  fold (reconcile_type OptionIAPD (IsMessage reqmsg) d2).
  cbv beta iota. rewrite trace_bind.
  change (reconcile_type OptionIAPD (IsMessage reqmsg) d2)
    with (reconcile_all (IsMessage reqmsg) (IsMessage respmsg)).
  assert (Hn : 0 + Z.of_nat (length (unmatched (reservations OptionIANA (IsMessage reqmsg))
                                       (reservations OptionIANA (IsMessage respmsg))))
               + Z.of_nat (length (unmatched (reservations OptionIATA (IsMessage reqmsg))
                                     (reservations OptionIATA d1)))
               + Z.of_nat (length (unmatched (reservations OptionIAPD (IsMessage reqmsg))
                                     (reservations OptionIAPD d2)))
               = gained (IsMessage respmsg) (reconcile_all (IsMessage reqmsg) (IsMessage respmsg))).
  { unfold gained, reconcile_all, d2, d1.
    rewrite (gained_reconcile_type OptionIAPD), (gained_reconcile_type OptionIATA),
      (gained_reconcile_type OptionIANA). lia. }
  rewrite Hn.
  unfold processed.
  clear Hn Hd1 Hd2. subst d2 d1.
  rewrite (reservations_reconcile_type_other OptionIAPD OptionIATA) by done.
  rewrite (reservations_reconcile_type_other OptionIAPD OptionIANA) by done.
  rewrite (reservations_reconcile_type_other OptionIATA OptionIANA) by done.
  rewrite (ia_fixup_quantifier_resp (reconcile_type OptionIANA _ _) (IsMessage respmsg)).
  rewrite (ia_fixup_quantifier_resp (reconcile_type OptionIATA _ _) (IsMessage respmsg)).
  unfold trace at 1 2. simpl. do 4 f_equal.
  rewrite app_nil_r. by destruct (0 <? _).
Qed.

(** X8: on two client messages [Handler6] counts the response's message
    type once, never counts a relay, and counts in v6processed one
    increment for each reservation type the request has, in the order IA_NA,
    IA_TA, IA_PD and none for a type the request lacks; the quantifier of a
    type is the one of the request's and the response's reservations of that
    type as they came in, whatever the blocks before it appended. *)
Theorem Handler6_counters (state : PluginState) (reqmsg respmsg : Message) :
  let req := IsMessage reqmsg in
  let resp := IsMessage respmsg in
  let tr := trace (Handler6 state req resp) in
  counted "v6types" tr = [[TypeString (MessageType_ respmsg)]]
  ∧ counted "v6relay" tr = []
  ∧ counted "v6processed" tr =
      (λ '(label, code),
         [Lit label;
          Lit (ia_fixup resp (reservations code req) (reservations code resp)).1.1])
      <$> filter (λ '(label, code), reservations code req ≠ [])
                 [("IA_NA", OptionIANA); ("IA_TA", OptionIATA); ("IA_PD", OptionIAPD)].
Proof.
  intros req resp tr. subst tr req resp. rewrite Handler6_trace. cbv zeta.
  unfold processed, counted.
  rewrite !filter_cons, filter_nil.
  repeat case_bool_decide; repeat case_decide; try done;
    destruct (0 <? _); done.
Qed.

(** X9: [Handler6] logs one line, through the state's logger: when the
    three blocks together appended N > 0 markers, the line that tells the
    number N of status codes added, else the plain line; either shows the
    response as it is returned. *)
Theorem Handler6_log_line (state : PluginState) (reqmsg respmsg : Message) :
  let req := IsMessage reqmsg in
  let resp := IsMessage respmsg in
  let out := value (Handler6 state req resp) in
  let n := gained resp (response out) in
  0 ≤ n
  ∧ logged (trace (Handler6 state req resp)) =
      [if 0 <? n then
         (Logger state, "[added %d statuscodes] %s", [ArgInt n; ArgDHCPv6 (response out)])
       else (Logger state, "%s", [ArgDHCPv6 (response out)])].
Proof.
  intros req resp out n. subst out n req resp.
  rewrite Handler6_trace, Handler6_messages. cbv zeta. simpl response. split.
  - destruct (reconcile_all_message (IsMessage reqmsg) respmsg) as (added & -> & _).
    unfold gained. simpl. rewrite length_app. lia.
  - unfold processed, logged.
    repeat case_bool_decide; simpl; by destruct (0 <? _).
Qed.


(** ** The plugin's arguments *)

Lemma Handler6_relevel (state : PluginState) (req resp : DHCPv6) :
  value (Handler6 state req resp) = value (Handler6 (mkPluginState "info") req resp)
  ∧ trace (Handler6 state req resp) =
      relevel (Logger state) <$> trace (Handler6 (mkPluginState "info") req resp).
Proof.
  destruct resp as [respmsg|f rm opts]; [|done].
  destruct req as [reqmsg|f rm opts]; [|done].
  split; [by rewrite !Handler6_messages|].
  rewrite !Handler6_trace. cbv zeta. unfold processed.
  repeat case_bool_decide; simpl; by destruct (0 <? _).
Qed.

Lemma Handler4_relevel (state : PluginState) (req resp : dhcpv4.DHCPv4) :
  value (responsestats.Handler4 state req resp) =
    value (responsestats.Handler4 (mkPluginState "info") req resp)
  ∧ trace (responsestats.Handler4 state req resp) =
      relevel (Logger state) <$> trace (responsestats.Handler4 (mkPluginState "info") req resp).
Proof.
  unfold responsestats.Handler4.
  destruct (negb _); [done|].
  destruct (dhcpv4.RelayAgentInfo_ req) as [rai|];
    destruct (_ && _); simpl; try done;
    by destruct (_ || _).
Qed.

(** X10: the plugin's arguments select only the level of the line it logs:
    debug when the first argument is silent, info otherwise.  The values
    the handlers return, the counters they increment and the content of what
    they log are the same for all arguments. *)
Theorem FromArgs_only_level (args : list string) :
  Logger (FromArgs args) =
    (if bool_decide (head args = Some "silent") then "debug" else "info")
  ∧ (∀ req resp : DHCPv6,
       value (Handler6 (FromArgs args) req resp) = value (Handler6 (FromArgs []) req resp)
       ∧ trace (Handler6 (FromArgs args) req resp) =
           relevel (Logger (FromArgs args)) <$> trace (Handler6 (FromArgs []) req resp))
  ∧ (∀ req resp : dhcpv4.DHCPv4,
       value (responsestats.Handler4 (FromArgs args) req resp) =
         value (responsestats.Handler4 (FromArgs []) req resp)
       ∧ trace (responsestats.Handler4 (FromArgs args) req resp) =
           relevel (Logger (FromArgs args))
             <$> trace (responsestats.Handler4 (FromArgs []) req resp)).
Proof.
  split; [|split].
  - destruct args as [|a l]; [done|]. simpl.
    case_bool_decide as Ha; case_bool_decide as Hb; try done; congruence.
  - intros req resp. apply Handler6_relevel.
  - intros req resp. apply Handler4_relevel.
Qed.

(** ** More on the DHCPv4 handlers *)

(** X11: a message whose opcode is not that of a boot request is counted by
    the request side as ignored, with a warning, and passed on; the response
    side does nothing for it: no counter and no log line. *)
Theorem Handler4_not_a_request (state : PluginState) (req resp : dhcpv4.DHCPv4) :
  dhcpv4.OpCode req ≠ dhcpv4.OpcodeBootRequest →
  requeststats.Handler4 req resp =
    ((resp, false),
     [Inc "v4types" [Lit "ignored"];
      Logged "warning" "not a BootRequest, ignoring %d" [ArgInt (dhcpv4.OpCode req)]])
  ∧ responsestats.Handler4 state req resp = ((resp, false), []).
Proof.
  intros Hop. unfold requeststats.Handler4, responsestats.Handler4.
  by destruct (Z.eqb_spec (dhcpv4.OpCode req) dhcpv4.OpcodeBootRequest).
Qed.

Lemma Handler4_not_a_request_witness :
  requeststats.Handler4 sample4.reply_as_request sample.offer4 =
    ((sample.offer4, false),
     [Inc "v4types" [Lit "ignored"];
      Logged "warning" "not a BootRequest, ignoring %d" [ArgInt 2]])
  ∧ responsestats.Handler4 sample.state sample4.reply_as_request sample.offer4 =
      ((sample.offer4, false), []).
Proof.
  apply (Handler4_not_a_request sample.state sample4.reply_as_request sample.offer4).
  vm_compute. discriminate.
Defined.

(** X12: for a boot request the response side counts the response's
    message type once, counts a processed lease, always with the result all,
    exactly when the response is an ACK whose address is set and not
    unspecified, counts a relay exactly when the request carries Relay Agent
    Information, and logs one line. *)
Theorem Handler4_response_counters (state : PluginState) (req resp : dhcpv4.DHCPv4) :
  dhcpv4.OpCode req = dhcpv4.OpcodeBootRequest →
  let tr := trace (responsestats.Handler4 state req resp) in
  counted "v4types" tr = [[TypeString (dhcpv4.MessageType_ resp)]]
  ∧ counted "v4processed" tr = (if lease_acked resp then [[Lit "all"]] else [])
  ∧ counted "v4relay" tr =
      (if dhcpv4.RelayAgentInfo_ req is Some _ then [[]] else [])
  ∧ ∃ format args, logged tr = [(Logger state, format, args)].
Proof.
  intros Hop. unfold responsestats.Handler4, lease_acked. rewrite Hop.
  change (negb (dhcpv4.OpcodeBootRequest =? dhcpv4.OpcodeBootRequest)) with false.
  cbv iota zeta.
  destruct (dhcpv4.RelayAgentInfo_ req) as [rai|];
    destruct (_ && _); simpl; try (by repeat split; eexists _, _);
    destruct (_ || _); simpl; by repeat split; eexists _, _.
Qed.

Lemma Handler4_response_counters_witness :
  let tr := trace (responsestats.Handler4 sample.state
                     (sample.relayed4 sample.rai_eth0) sample4.ack) in
  counted "v4types" tr = [[TypeString dhcpv4.MessageTypeAck]]
  ∧ counted "v4processed" tr = [[Lit "all"]]
  ∧ counted "v4relay" tr = [[]]
  ∧ ∃ format args, logged tr = [("info", format, args)].
Proof.
  apply (Handler4_response_counters sample.state
           (sample.relayed4 sample.rai_eth0) sample4.ack).
  reflexivity.
Defined.

Lemma counted_app (counter : string) (t1 t2 : list Event) :
  counted counter (t1 ++ t2) = counted counter t1 ++ counted counter t2.
Proof. apply omap_app. Qed.

(** The request-side [Handler4], path by path. *)
Lemma requeststats_Handler4_eq (req resp : dhcpv4.DHCPv4) :
  requeststats.Handler4 req resp = ((resp, false), request4_trace req).
Proof.
  unfold requeststats.Handler4, request4_trace. fold (giaddr_invalid req).
  destruct (dhcpv4.OpCode req =? dhcpv4.OpcodeBootRequest); simpl; [|done].
  destruct (dhcpv4.RelayAgentInfo_ req) as [rai|].
  - destruct (giaddr_invalid req); [done|].
    destruct (requeststats.missing_suboptions rai) as [[] w]. simpl.
    by rewrite app_nil_r.
  - by destruct (giaddr_invalid req).
Qed.

(** X13: the request side always passes the response on, and counts one
    message type for every message: the request's type for a boot request,
    ignored otherwise.  It counts a relay for a boot request that carries
    Relay Agent Information or names a usable gateway address; the response
    side counts a relay only for the former, so each exchange the response
    side counts as relayed the request side does too. *)
Theorem Handler4_request_counters (state : PluginState) (req resp resp' : dhcpv4.DHCPv4) :
  let tr := trace (requeststats.Handler4 req resp) in
  let is_request := dhcpv4.OpCode req =? dhcpv4.OpcodeBootRequest in
  value (requeststats.Handler4 req resp) = (resp, false)
  ∧ counted "v4types" tr =
      [[if is_request then TypeString (dhcpv4.MessageType_ req) else Lit "ignored"]]
  ∧ counted "v4relay" tr =
      (if is_request
          && (bool_decide (is_Some (dhcpv4.RelayAgentInfo_ req)) || negb (giaddr_invalid req))
       then [[]] else [])
  ∧ (counted "v4relay" (trace (responsestats.Handler4 state req resp')) ≠ [] →
     counted "v4relay" tr ≠ []).
Proof.
  assert (Hresp : counted "v4relay" (trace (responsestats.Handler4 state req resp')) ≠ [] →
                  (dhcpv4.OpCode req =? dhcpv4.OpcodeBootRequest) = true
                  ∧ is_Some (dhcpv4.RelayAgentInfo_ req)).
  { unfold responsestats.Handler4.
    destruct (dhcpv4.OpCode req =? dhcpv4.OpcodeBootRequest); simpl; [|done].
    destruct (dhcpv4.RelayAgentInfo_ req) as [rai|]; [by eauto|].
    destruct (_ && _); simpl; by destruct (_ || _). }
  rewrite (requeststats_Handler4_eq req resp). cbv zeta. unfold request4_trace.
  fold (giaddr_invalid req).
  destruct (dhcpv4.OpCode req =? dhcpv4.OpcodeBootRequest); simpl.
  - destruct (dhcpv4.RelayAgentInfo_ req) as [rai|]; simpl.
    + destruct (giaddr_invalid req); simpl; [by repeat split|].
      unfold requeststats.missing_suboptions, when.
      repeat case_bool_decide; simpl; by repeat split.
    + destruct (giaddr_invalid req); simpl; repeat split; try done.
      by intros [_ [? [=]]]%Hresp.
  - repeat split; try done. by intros [[=] _]%Hresp.
Qed.

Lemma Handler4_request_counters_witness :
  counted "v4relay"
    (trace (requeststats.Handler4 (sample.relayed4 sample.rai_eth0) sample.offer4)) ≠ [].
Proof.
  destruct (Handler4_request_counters sample.state (sample.relayed4 sample.rai_eth0)
              sample.offer4 sample4.ack) as (_ & _ & _ & Hboth).
  apply Hboth. vm_compute. discriminate.
Defined.

(** A request through a gateway without Relay Agent Information: counted as
    relayed by the request side, not by the response side. *)
Example Handler4_relay_counts_differ :
  counted "v4relay" (trace (requeststats.Handler4 sample4.via_gateway sample.offer4)) = [[]]
  ∧ counted "v4relay"
      (trace (responsestats.Handler4 sample.state sample4.via_gateway sample.offer4)) = [].
Proof. split; vm_compute; reflexivity. Qed.

(** X14: what the request side reports as missing.  Relay Agent
    Information with an unusable gateway address is reported under
    GatewayIPAddr, a usable gateway address without Relay Agent Information
    under RelayAgentInfo, and in both cases the suboptions are not looked
    at; with both present, a missing link selection and a missing agent id
    (circuit id and remote id both empty) are reported, each on its own. *)
Theorem Handler4_missing_reports (req resp : dhcpv4.DHCPv4) :
  counted "v4raimissingsuboptions" (trace (requeststats.Handler4 req resp)) =
    if dhcpv4.OpCode req =? dhcpv4.OpcodeBootRequest then
      match dhcpv4.RelayAgentInfo_ req, giaddr_invalid req with
      | Some _, true => [[Lit "GatewayIPAddr"]]
      | None, false => [[Lit "RelayAgentInfo"]]
      | None, true => []
      | Some rai, false =>
          (if dhcpv4.GetIP dhcpv4.LinkSelectionSubOption rai is None
           then [[Lit "LinkSelectionSubOption"]] else [])
          ++ (if bool_decide
                   (dhcpv4.GetString dhcpv4.AgentCircuitIDSubOption rai = EmptyString
                    ∧ dhcpv4.GetString dhcpv4.AgentRemoteIDSubOption rai = EmptyString)
              then [[Lit "AgentIDSubOption"]] else [])
      end
    else [].
Proof.
  rewrite requeststats_Handler4_eq. unfold trace, request4_trace. simpl.
  destruct (dhcpv4.OpCode req =? dhcpv4.OpcodeBootRequest); [|done].
  destruct (dhcpv4.RelayAgentInfo_ req) as [rai|];
    destruct (giaddr_invalid req); try done.
  unfold requeststats.missing_suboptions, when.
  destruct (dhcpv4.GetIP dhcpv4.LinkSelectionSubOption rai);
    repeat case_bool_decide; simpl; try done;
    repeat match goal with
           | H : String.length _ = 0%nat |- _ => apply length_zero_empty in H
           | H : String.length _ ≠ 0%nat |- _ => rewrite length_zero_empty in H
           end; tauto.
Qed.

(** ** More on the request-side [Handler6] *)

(** When the innermost relay message of a relayed request can be found, it
    holds the client message that [GetInnerMessage] finds; when it cannot,
    [GetInnerMessage] fails in the same way. *)
Lemma DecapsulateRelayLast_GetInnerMessage :
  ∀ d : DHCPv6,
    IsRelay d = true →
    match GetInnerMessage d with
    | Ok m => ∃ f opts, DecapsulateRelayLast d = Ok (IsRelayMessage f (Some (IsMessage m)) opts)
    | Err e => DecapsulateRelayLast d = Err e
    end.
Proof.
  fix IH 1. intros [m|f [inner|] opts] Hrelay; [done| |done].
  specialize (IH inner). simpl.
  destruct inner as [m'|f' rm' opts'].
  - simpl. by eexists _, _.
  - by apply IH.
Qed.

(** The request-side [Handler6], path by path. *)
Lemma requeststats_Handler6_eq (req resp : DHCPv6) :
  requeststats.Handler6 req resp =
    if IsRelay req then
      match GetInnerMessage req with
      | Ok m =>
          ((Some resp, false),
           Inc "v6relay" [] :: Inc "v6types" [TypeString (MessageType_ m)] :: requested_ias m)
      | Err err =>
          ((None, true),
           [Inc "v6relay" []; Inc "v6types" [Lit "error"];
            Logged "error" "could not decapsulate: %v" [ArgError err]])
      end
    else
      ((None, true),
       [Inc "v6types" [Lit "error"];
        Logged "error" "relay message format bug: %v" [ArgDHCPv6 req]]).
Proof.
  destruct (IsRelay req) eqn:Hrelay; [|by destruct req].
  pose proof (DecapsulateRelayLast_GetInnerMessage req Hrelay) as Hlast.
  unfold requeststats.Handler6. rewrite Hrelay.
  destruct (GetInnerMessage req) as [m|err].
  - destruct Hlast as (f & opts & Hlast).
    erewrite count_request_innermost; [done|].
    unfold DecapsulateRelayIndex. by rewrite Hrelay.
  - unfold requeststats.count_request, DecapsulateRelayIndex.
    rewrite Hrelay. simpl. by rewrite Hlast.
Qed.

Lemma requested_ias_counters (m : Message) :
  counted "v6types" (requested_ias m) = []
  ∧ counted "v6relay" (requested_ias m) = []
  ∧ Forall (λ '(_, v), 0 < v) (added "v6ia" (requested_ias m)).
Proof.
  unfold requested_ias.
  repeat match goal with |- context [0 <? ?n] => destruct (Z.ltb_spec 0 n) end;
    simpl; repeat split; repeat constructor; done.
Qed.

(** X15: the request-side [Handler6] lets an exchange pass exactly when the
    request is a relay message with a client message inside; it then
    returns the response it was given and counts the relay, the type of the
    client message and the identity associations that message asks for.
    Every other request is dropped, with nil for the response. *)
Theorem Handler6_request_accepts (req resp : DHCPv6) :
  ((value (requeststats.Handler6 req resp)).2 = false
   ↔ IsRelay req = true ∧ ∃ m, GetInnerMessage req = Ok m)
  ∧ (∀ m, IsRelay req = true → GetInnerMessage req = Ok m →
       requeststats.Handler6 req resp =
         ((Some resp, false),
          Inc "v6relay" [] :: Inc "v6types" [TypeString (MessageType_ m)] :: requested_ias m))
  ∧ ((value (requeststats.Handler6 req resp)).2 = true →
     (value (requeststats.Handler6 req resp)).1 = None).
Proof.
  rewrite requeststats_Handler6_eq.
  destruct (IsRelay req); [|by repeat split; try done; intros [[=] _]].
  destruct (GetInnerMessage req) as [m|err]; simpl.
  - repeat split; [by eauto|by intros m' _ [= ->]|done].
  - repeat split; try done. by intros [_ [m [=]]].
Qed.

Lemma Handler6_request_accepts_witness :
  requeststats.Handler6 (sample.relay_forward sample.request_abc)
                        (IsMessage sample.response_ab) =
    ((Some (IsMessage sample.response_ab), false),
     Inc "v6relay" [] :: Inc "v6types" [TypeString (MessageType_ sample.request_abc)]
       :: requested_ias sample.request_abc).
Proof.
  destruct (Handler6_request_accepts (sample.relay_forward sample.request_abc)
              (IsMessage sample.response_ab)) as (_ & Haccept & _).
  apply Haccept; reflexivity.
Defined.

(** X16: every call of the request-side [Handler6] counts exactly one
    message type, the client message's or error; it counts a relay exactly
    when the request is a relay message, also when it then drops it; and it
    never adds 0 to the count of requested identity associations. *)
Theorem Handler6_request_counters (req resp : DHCPv6) :
  let tr := trace (requeststats.Handler6 req resp) in
  (∃ label, counted "v6types" tr = [[label]])
  ∧ counted "v6relay" tr = (if IsRelay req then [[]] else [])
  ∧ Forall (λ '(_, v), 0 < v) (added "v6ia" tr).
Proof.
  rewrite requeststats_Handler6_eq.
  destruct (IsRelay req); [|by repeat split; eauto].
  destruct (GetInnerMessage req) as [m|err]; [|by repeat split; eauto].
  destruct (requested_ias_counters m) as (Ht & Hr & Ha).
  unfold trace. simpl. rewrite Ht, Hr. by repeat split; eauto.
Qed.

(** X17: no DHCPv6 request passes both plugins.  The request side accepts
    only relay messages, the response side only client messages, so for
    every request at least one of the two handlers asks for a drop. *)
Theorem Handler6_never_both (state : PluginState) (req resp resp' : DHCPv6) :
  (value (requeststats.Handler6 req resp)).2 = true
  ∨ drop (value (responsestats.Handler6 state req resp')) = true.
Proof.
  destruct req as [reqmsg|f rm opts].
  - by left.
  - right. by destruct resp'.
Qed.

(** ** Order and type independence of [ia_fixup] *)

(** X18: [ia_fixup] run on request reservations of one type leaves the
    response's reservation sets of every other type as they were. *)
Theorem ia_fixup_other_types (code code' : OptionCode) (resp : DHCPv6)
    (request_ias response_ias : list IdentityAssociation) :
  Forall (λ r, Code r = code') request_ias →
  code ≠ code' →
  reservations code (ia_fixup resp request_ias response_ias).2 = reservations code resp.
Proof.
  intros Hreq Hne. rewrite ia_fixup_eq. simpl. unfold denials.
  rewrite reservations_foldl_AddOption.
  rewrite (filter_Code_denials_other code code'); [by rewrite app_nil_r|done|].
  unfold unmatched. apply Forall_forall. intros r [_ Hr]%list_elem_of_filter.
  by eapply Forall_forall in Hreq.
Qed.

Lemma ia_fixup_other_types_witness :
  reservations OptionIAPD
    (ia_fixup (IsMessage sample.response_ab)
              (FromIANA (IANA (Options sample.request_abc)))
              (FromIANA (IANA (Options sample.response_ab)))).2
  = reservations OptionIAPD (IsMessage sample.response_ab).
Proof.
  apply (ia_fixup_other_types OptionIAPD OptionIANA).
  - apply (bool_decide_unpack _). vm_compute. exact I.
  - discriminate.
Defined.

(** X19: the order of the request reservations does not matter to what
    [ia_fixup] returns: the quantifier and the count are the same for every
    reordering, and the options of the response are the same up to the order
    of the appended markers. *)
Theorem ia_fixup_request_order (resp : DHCPv6)
    (request_ias request_ias' response_ias : list IdentityAssociation) :
  request_ias ≡ₚ request_ias' →
  (ia_fixup resp request_ias response_ias).1 = (ia_fixup resp request_ias' response_ias).1
  ∧ options_of (ia_fixup resp request_ias response_ias).2
      ≡ₚ options_of (ia_fixup resp request_ias' response_ias).2.
Proof.
  intros Hperm. rewrite !ia_fixup_eq. simpl.
  rewrite !options_of_foldl_AddOption.
  unfold denials, unmatched, count_satisfied, count_unsatisfied.
  by rewrite Hperm.
Qed.

Lemma ia_fixup_request_order_witness :
  (ia_fixup (IsMessage sample.response_ab)
     [AsIANA (sample.requested sample.idC); AsIANA (sample.requested sample.idA)]
     (FromIANA (IANA (Options sample.response_ab)))).1
  = (ia_fixup (IsMessage sample.response_ab)
       [AsIANA (sample.requested sample.idA); AsIANA (sample.requested sample.idC)]
       (FromIANA (IANA (Options sample.response_ab)))).1
  ∧ options_of (ia_fixup (IsMessage sample.response_ab)
       [AsIANA (sample.requested sample.idC); AsIANA (sample.requested sample.idA)]
       (FromIANA (IANA (Options sample.response_ab)))).2
    ≡ₚ options_of (ia_fixup (IsMessage sample.response_ab)
         [AsIANA (sample.requested sample.idA); AsIANA (sample.requested sample.idC)]
         (FromIANA (IANA (Options sample.response_ab)))).2.
Proof.
  apply (ia_fixup_request_order (IsMessage sample.response_ab)).
  apply perm_swap.
Defined.

Lemma filter_Id_short (iaid : IAID) (response_ias : list IdentityAssociation) :
  NoDup (Id <$> response_ias) →
  (length (filter (λ x, Id x = iaid) response_ias) ≤ 1)%nat.
Proof.
  induction response_ias as [|x l IH]; [simpl; lia|].
  rewrite fmap_cons, NoDup_cons. intros [Hx Hl]. rewrite filter_cons.
  case_decide as Hid; [|by apply IH].
  assert (Hnone : filter (λ x, Id x = iaid) l = []).
  { destruct (filter (λ x, Id x = iaid) l) as [|y k] eqn:Hf; [done|].
    assert (Hy : y ∈ filter (λ x, Id x = iaid) l) by (rewrite Hf; by left).
    apply list_elem_of_filter in Hy as [Hyid Hy].
    destruct Hx. rewrite Hid, <- Hyid. by apply list_elem_of_fmap_2. }
  rewrite Hnone. simpl. lia.
Qed.

Lemma first_match_Permutation (iaid : IAID) (response_ias response_ias' : list IdentityAssociation) :
  NoDup (Id <$> response_ias) →
  response_ias ≡ₚ response_ias' →
  first_match iaid response_ias = first_match iaid response_ias'.
Proof.
  intros Hnd Hperm. unfold first_match.
  pose proof (filter_Id_short iaid response_ias Hnd) as Hlen.
  assert (Hf : filter (λ x, Id x = iaid) response_ias
               ≡ₚ filter (λ x, Id x = iaid) response_ias') by (by rewrite Hperm).
  destruct (filter (λ x, Id x = iaid) response_ias) as [|x [|y k]].
  - apply Permutation_nil_l in Hf. by rewrite <- Hf.
  - apply Permutation_singleton_l in Hf. by rewrite <- Hf.
  - simpl in Hlen. lia.
Qed.

(** X20: when the identifiers of the response sequence are unique, its
    order does not matter either: [ia_fixup] returns the same and leaves the
    same response for every reordering of the response sequence. *)
Theorem ia_fixup_response_order (resp : DHCPv6)
    (request_ias response_ias response_ias' : list IdentityAssociation) :
  NoDup (Id <$> response_ias) →
  response_ias ≡ₚ response_ias' →
  ia_fixup resp request_ias response_ias = ia_fixup resp request_ias response_ias'.
Proof.
  intros Hnd Hperm. rewrite !ia_fixup_eq.
  assert (Hsat : ∀ r, is_satisfied response_ias r = is_satisfied response_ias' r).
  { intros r. unfold is_satisfied. by rewrite (first_match_Permutation _ _ _ Hnd Hperm). }
  assert (Hs : count_satisfied request_ias response_ias
               = count_satisfied request_ias response_ias').
  { unfold count_satisfied. f_equal. apply list_filter_iff. intros r. by rewrite Hsat. }
  assert (Hu : count_unsatisfied request_ias response_ias
               = count_unsatisfied request_ias response_ias').
  { unfold count_unsatisfied. f_equal. apply list_filter_iff. intros r. by rewrite Hsat. }
  assert (Hm : unmatched request_ias response_ias = unmatched request_ias response_ias').
  { unfold unmatched. apply list_filter_iff. intros r. by rewrite Hperm. }
  unfold denials. by rewrite Hs, Hu, Hm.
Qed.

Lemma ia_fixup_response_order_witness :
  ia_fixup (IsMessage sample.response_ab)
           (FromIANA (IANA (Options sample.request_abc)))
           [AsIANA (sample.allocated sample.idA); AsIANA (sample.unallocated sample.idB)]
  = ia_fixup (IsMessage sample.response_ab)
             (FromIANA (IANA (Options sample.request_abc)))
             [AsIANA (sample.unallocated sample.idB); AsIANA (sample.allocated sample.idA)].
Proof.
  apply (ia_fixup_response_order (IsMessage sample.response_ab)).
  - apply (bool_decide_unpack _). vm_compute. exact I.
  - apply perm_swap.
Defined.

(** With a repeated identifier the order of the response sequence does
    matter: the first entry decides. *)
Example ia_fixup_response_order_duplicates :
  (ia_fixup (IsMessage sample.response_ab) [AsIANA (sample.requested sample.idA)]
     [AsIANA (sample.unallocated sample.idA); AsIANA (sample.allocated sample.idA)]).1.1
    = "none"
  ∧ (ia_fixup (IsMessage sample.response_ab) [AsIANA (sample.requested sample.idA)]
       [AsIANA (sample.allocated sample.idA); AsIANA (sample.unallocated sample.idA)]).1.1
    = "all".
Proof. split; vm_compute; reflexivity. Qed.

(** ** The interface label, as the handlers have it *)

(** C9 (as stated) fails on three counts, each at a Relay Agent Information
    option with neither circuit id nor remote id.  The label is not the
    string unspecified.  With a usable gateway address the request side
    reports the missing agent id, but under no label named interface
    identifier.  Without a gateway address it reports GatewayIPAddr and
    nothing about the agent id. *)
Lemma interface_label_as_stated_fails :
  intfstr_of ∅ ≠ "unspecified"
  ∧ counted "v4raimissingsuboptions"
      (trace (requeststats.Handler4 (sample.relayed4 ∅) sample.offer4))
    = [[Lit "LinkSelectionSubOption"]; [Lit "AgentIDSubOption"]]
  ∧ ([Lit "interface identifier"]
       ∉ counted "v4raimissingsuboptions"
           (trace (requeststats.Handler4 (sample.relayed4 ∅) sample.offer4)))
  ∧ counted "v4raimissingsuboptions"
      (trace (requeststats.Handler4 (sample4.no_gateway ∅) sample.offer4))
    = [[Lit "GatewayIPAddr"]].
Proof.
  split; [|split; [|split]].
  - vm_compute. discriminate.
  - vm_compute. reflexivity.
  - assert (Hreport : counted "v4raimissingsuboptions"
                        (trace (requeststats.Handler4 (sample.relayed4 ∅) sample.offer4))
                      = [[Lit "LinkSelectionSubOption"]; [Lit "AgentIDSubOption"]])
      by (vm_compute; reflexivity).
    rewrite Hreport. intros Hin.
    repeat (apply elem_of_cons in Hin as [Hin|Hin]; [discriminate Hin|]).
    by apply elem_of_nil in Hin.
  - vm_compute. reflexivity.
Qed.

(** C9 (amended): for a boot request that carries Relay Agent Information,
    the label the response side logs is the circuit id when that is not
    empty, else the remote id when that is not empty, else the placeholder
    <unspecified>.  When the request also has a usable gateway address, the
    request side reports the agent id as missing, under the label
    AgentIDSubOption, exactly when circuit id and remote id are both empty;
    when the gateway address is empty or unspecified it reports
    GatewayIPAddr and does not look at the suboptions. *)
Theorem interface_label_resolution (state : PluginState) (req resp : dhcpv4.DHCPv4)
    (rai : dhcpv4.Options) :
  dhcpv4.OpCode req = dhcpv4.OpcodeBootRequest →
  dhcpv4.RelayAgentInfo_ req = Some rai →
  let circuit := dhcpv4.GetString dhcpv4.AgentCircuitIDSubOption rai in
  let remote := dhcpv4.GetString dhcpv4.AgentRemoteIDSubOption rai in
  let label :=
    if bool_decide (circuit ≠ EmptyString) then circuit
    else if bool_decide (remote ≠ EmptyString) then remote
    else "<unspecified>" in
  (∃ peer link mac addr,
     logged (trace (responsestats.Handler4 state req resp)) =
       [(Logger state, "[relay=%s link=%s intf=%s] MAC %s allocated %s",
         [peer; link; ArgString label; mac; addr])])
  ∧ (giaddr_invalid req = false →
     ([Lit "AgentIDSubOption"]
        ∈ counted "v4raimissingsuboptions" (trace (requeststats.Handler4 req resp))
      ↔ circuit = EmptyString ∧ remote = EmptyString))
  ∧ (giaddr_invalid req = true →
     counted "v4raimissingsuboptions" (trace (requeststats.Handler4 req resp))
       = [[Lit "GatewayIPAddr"]]).
Proof.
  intros Hop Hrai circuit remote label.
  destruct (interface_label_fallback rai) as (Hlabel & _ & _).
  fold circuit remote label in Hlabel.
  split; [|split].
  - unfold responsestats.Handler4. rewrite Hop, Hrai.
    change (negb (dhcpv4.OpcodeBootRequest =? dhcpv4.OpcodeBootRequest)) with false.
    cbv iota zeta. rewrite Hlabel.
    destruct (_ && _); simpl; by eexists _, _, _, _.
  - intros Hgi. rewrite requeststats_Handler4_eq. unfold trace, request4_trace. simpl.
    rewrite Hop, Hrai, Hgi.
    change (dhcpv4.OpcodeBootRequest =? dhcpv4.OpcodeBootRequest) with true. cbv iota.
    unfold requeststats.missing_suboptions, when. fold circuit remote.
    rewrite <- !length_zero_empty.
    repeat case_bool_decide; simpl;
      rewrite ?elem_of_cons, ?elem_of_nil; intuition (try congruence; try discriminate).
  - intros Hgi. rewrite requeststats_Handler4_eq. unfold trace, request4_trace. simpl.
    rewrite Hop, Hrai, Hgi. reflexivity.
Qed.

(** An empty circuit id and remote id eth0, relayed through 10.0.0.1: the
    label is eth0 and the agent id is not reported missing. *)
Lemma interface_label_resolution_witness :
  (∃ peer link mac addr,
     logged (trace (responsestats.Handler4 sample.state
                      (sample.relayed4 sample.rai_eth0) sample.offer4)) =
       [("info", "[relay=%s link=%s intf=%s] MAC %s allocated %s",
         [peer; link; ArgString "eth0"; mac; addr])])
  ∧ ([Lit "AgentIDSubOption"]
       ∉ counted "v4raimissingsuboptions"
           (trace (requeststats.Handler4 (sample.relayed4 sample.rai_eth0) sample.offer4))).
Proof.
  destruct (interface_label_resolution sample.state (sample.relayed4 sample.rai_eth0)
              sample.offer4 sample.rai_eth0 eq_refl eq_refl)
    as (Hlog & Hiff & _).
  split.
  - destruct Hlog as (peer & link & mac & addr & Hlog).
    exists peer, link, mac, addr. rewrite Hlog. vm_compute. reflexivity.
  - intros Hin. apply Hiff in Hin; [|reflexivity].
    destruct Hin as [_ Hremote]. vm_compute in Hremote. discriminate Hremote.
Defined.
